(** * The Splunk pump of tyk-pump (pumps/splunk.go)

    A shallow embedding of the Splunk HTTP Event Collector client and pump
    driver, and the properties of it that the specification relies on.

    Conventions.
    - Go maps ([map[string]interface{}]) are stdpp [gmap string value].
    - Go [int]/[int64] are [Z]; the one subtraction the pump performs on
      [int] has its 64-bit wrap-around written out.
    - Go strings are byte strings: [String.length] is [len].
    - A Go panic is an outcome of its own ([Panics]), distinct from a
      returned [error].
    - Process-wide state ([http.DefaultClient], the network, the log) is one
      [World] value passed explicitly.
    - Library functions the pump calls but that live outside the package
      ([url.Parse], [tls.LoadX509KeyPair], the network round trip, ...) are
      the fields of a [Platform] record that every definition takes. *)

From Stdlib Require Import ZArith String Ascii List Bool Lia.
From stdpp Require Import base strings gmap list fin_maps.

Local Open Scope string_scope.
Local Open Scope Z_scope.

(** ** Go runtime *)

Inductive panic : Type :=
| PanicTypeAssertion            (* interface conversion: wrong dynamic type *)
| PanicSliceBounds (idx len : Z) (* slice bounds out of range *)
| PanicNilDeref.                (* nil pointer dereference *)

Inductive outcome (A : Type) : Type :=
| Returns (a : A)
| Panics (p : panic).
Arguments Returns {A} a.
Arguments Panics {A} p.

Definition returned {A} (o : outcome A) : bool :=
  match o with Returns _ => true | Panics _ => false end.

(** Go errors.  [errInvalidSettings] is the package's own value (line 28);
    the others stand for errors made by the libraries. *)
Inductive error : Type :=
| errInvalidSettings
| ErrURL (msg : string)
| ErrTLS (msg : string)
| ErrJSON
| ErrTransport (msg : string).

(** [int] on a 64-bit platform. *)
Definition wrap64 (z : Z) : Z := (z + 2 ^ 63) mod 2 ^ 64 - 2 ^ 63.

Definition len (s : string) : Z := Z.of_nat (String.length s).

(** [s[i:]]: panics unless [0 <= i <= len(s)]. *)
Definition slice_from (s : string) (i : Z) : outcome string :=
  if (i <? 0) || (len s <? i)
  then Panics (PanicSliceBounds i (len s))
  else Returns (String.substring (Z.to_nat i) (String.length s - Z.to_nat i) s).

Module time.
(** [time.Time], as far as the pump looks at it: the seconds since the
    epoch and the nanoseconds within the second. *)
Record Time : Type := { unixSec : Z; nsec : Z }.

(** [t.Unix()] *)
Definition Unix (t : Time) : Z := unixSec t.
End time.

(** The dynamic values that end up in an event ([interface{}]).  [VChan]
    stands for the values [encoding/json] refuses (channels, functions). *)
Inductive value : Type :=
| VNil
| VString (s : string)
| VInt (n : Z)
| VTime (t : time.Time)
| VChan.

(** [m[k]] on a [map[string]interface{}]: the zero value, [nil], when the
    key is absent. *)
Definition index (m : gmap string value) (k : string) : value :=
  default VNil (m !! k).

(** ** package analytics *)

Module analytics.
(** Modelled from the spec: the type [analytics.AnalyticsRecord] is
    declared outside src/.  These are the fourteen fields the pump reads
    (lines 164 and 177-190); the string/int/time kinds are the ones of the
    data model in the specification. *)
Record AnalyticsRecord : Type := {
  Method : string;
  Path : string;
  ResponseCode : Z;
  APIKey : string;
  TimeStamp : time.Time;
  APIVersion : string;
  APIName : string;
  APIID : string;
  OrgID : string;
  OauthID : string;
  RawRequest : string;
  RequestTime : Z;
  RawResponse : string;
  IPAddress : string
}.
End analytics.
Abbreviation AnalyticsRecord := analytics.AnalyticsRecord.

(** An element of the batch, [interface{}], by dynamic type. *)
Inductive iface : Type :=
| IRecord (r : AnalyticsRecord)      (* analytics.AnalyticsRecord *)
| IRecordPtr (r : AnalyticsRecord)   (* pointer to analytics.AnalyticsRecord *)
| IValue (v : value).                (* anything else, nil included *)

Definition isRecord (v : iface) : bool :=
  match v with IRecord _ => true | _ => false end.

(** ** Driver configuration (lines 98-108) *)

Module Cfg.
Record SplunkPumpConfig : Type := {
  CollectorToken : string;
  CollectorURL : string;
  SSLInsecureSkipVerify : bool;
  SSLCertFile : string;
  SSLKeyFile : string;
  SSLServerName : string;
  ObfuscateAPIKeys : bool;
  ObfuscateAPIKeysLength : Z;
  Fields : list string
}.
End Cfg.
Abbreviation SplunkPumpConfig := Cfg.SplunkPumpConfig.

(** ** The event of one record (lines 150-192) *)

(** The literal of lines 176-191. *)
Definition defaultEvent (decoded : AnalyticsRecord) : gmap string value :=
  <["method" := VString (analytics.Method decoded)]>
  (<["path" := VString (analytics.Path decoded)]>
  (<["response_code" := VInt (analytics.ResponseCode decoded)]>
  (<["api_key" := VString (analytics.APIKey decoded)]>
  (<["time_stamp" := VTime (analytics.TimeStamp decoded)]>
  (<["api_version" := VString (analytics.APIVersion decoded)]>
  (<["api_name" := VString (analytics.APIName decoded)]>
  (<["api_id" := VString (analytics.APIID decoded)]>
  (<["org_id" := VString (analytics.OrgID decoded)]>
  (<["oauth_id" := VString (analytics.OauthID decoded)]>
  (<["raw_request" := VString (analytics.RawRequest decoded)]>
  (<["request_time" := VInt (analytics.RequestTime decoded)]>
  (<["raw_response" := VString (analytics.RawResponse decoded)]>
  (<["ip_address" := VString (analytics.IPAddress decoded)]> ∅))))))))))))).

(** The keys of that literal, in source order. *)
Definition defaultKeys : list string :=
  [ "method"; "path"; "response_code"; "api_key"; "time_stamp";
    "api_version"; "api_name"; "api_id"; "org_id"; "oauth_id";
    "raw_request"; "request_time"; "raw_response"; "ip_address" ].

Section Transformer.

(** The package-level registry [mapping] that lines 158 and 171 read is
    not declared in src/: every result below holds for whatever it
    contains. *)
Variable mapping : gmap string value.

(** Lines 166-167 write [p.config.ObfuscateAPIKeys], the boolean flag,
    where Go needs an [int].  The integer that operand denotes is left
    open: [obfuscateOperand cfg] is any integer determined by the
    configuration (the declared [ObfuscateAPIKeysLength] is one reading). *)
Variable obfuscateOperand : SplunkPumpConfig -> Z.

(** One turn of the loop of lines 156-173, on the event built so far. *)
Definition projectField (cfg : SplunkPumpConfig) (decoded : AnalyticsRecord)
    (event : gmap string value) (field : string) : outcome (gmap string value) :=
  match mapping !! field with
  | Some _ => Returns event                                   (* continue *)
  | None =>
      if String.eqb field "api_key" && Cfg.ObfuscateAPIKeys cfg then
        let apiKey := analytics.APIKey decoded in
        if obfuscateOperand cfg <? len apiKey then
          match slice_from apiKey (wrap64 (len apiKey - obfuscateOperand cfg)) with
          | Panics q => Panics q
          | Returns suffix => Returns (<[field := VString ("****" +:+ suffix)]> event)
          end
        else Returns event
      else Returns (<[field := index mapping field]> event)
  end.

Fixpoint projectFields (cfg : SplunkPumpConfig) (decoded : AnalyticsRecord)
    (fields : list string) (event : gmap string value) : outcome (gmap string value) :=
  match fields with
  | [] => Returns event
  | field :: rest =>
      match projectField cfg decoded event field with
      | Panics q => Panics q
      | Returns event' => projectFields cfg decoded rest event'
      end
  end.

(** Lines 150-192: the event handed to [Send] for [decoded]. *)
Definition buildEvent (cfg : SplunkPumpConfig) (decoded : AnalyticsRecord)
    : outcome (gmap string value) :=
  if (0 <? Z.of_nat (length (Cfg.Fields cfg)))%Z
  then projectFields cfg decoded (Cfg.Fields cfg) ∅
  else Returns (defaultEvent decoded).

End Transformer.

(** ** package net/url, crypto/tls, encoding/json, net/http *)

Module url.
(** [url.URL]; [User] is the encoded userinfo, if any. *)
Record URL : Type := {
  Scheme : string;
  Opaque : string;
  User : option string;
  Host : string;
  Path : string;
  RawPath : string;
  RawQuery : string;
  Fragment : string
}.

(** [u.Path = p] *)
Definition setPath (u : URL) (p : string) : URL :=
  {| Scheme := Scheme u; Opaque := Opaque u; User := User u; Host := Host u;
     Path := p; RawPath := RawPath u; RawQuery := RawQuery u;
     Fragment := Fragment u |}.
End url.

Module tls.
(** The result of [tls.LoadX509KeyPair]: the parsed pair. *)
Inductive Certificate : Type := X509KeyPair (certPEM keyPEM : string).

Record Config : Type := {
  InsecureSkipVerify : bool;
  Certificates : list Certificate;
  ServerName : string
}.
End tls.

(** A JSON document. *)
#[warnings="-register-all"]
Inductive json : Type :=
| JNull
| JNumber (n : Z)
| JString (s : string)
| JObject (members : gmap string json).

(** [context.Context], by what a round trip can observe of it. *)
Inductive Context : Type :=
| ctxBackground
| ctxCanceled
| ctxDeadline (unix : Z).

Module http.
Record Transport : Type := { TLSClientConfig : tls.Config }.

Module Client.
(** [http.Client]; [Transport = None] is Go's nil, meaning
    [http.DefaultTransport]. *)
Record t : Type := { Transport : option http.Transport }.
End Client.

Abbreviation Header := (gmap string (list string)).

Record Request : Type := {
  Method : string;
  URL : url.URL;
  header : Header;
  Body : json;
  ctx : Context
}.

Record Response : Type := { StatusCode : Z; RespBody : string }.

Definition upper (c : ascii) : ascii :=
  let n := nat_of_ascii c in
  if ((97 <=? n) && (n <=? 122))%nat then ascii_of_nat (n - 32) else c.

Definition lower (c : ascii) : ascii :=
  let n := nat_of_ascii c in
  if ((65 <=? n) && (n <=? 90))%nat then ascii_of_nat (n + 32) else c.

(** [textproto.CanonicalMIMEHeaderKey] on a key made of letters, digits
    and hyphens: first letter and letters after a hyphen in upper case,
    the others in lower case. *)
Fixpoint canonical (up : bool) (s : string) : string :=
  match s with
  | EmptyString => EmptyString
  | String c rest =>
      String (if up then upper c else lower c) (canonical (Ascii.eqb c "-") rest)
  end.

Definition CanonicalHeaderKey (s : string) : string := canonical true s.

(** [h.Add(key, value)] *)
Definition Add (h : Header) (key val : string) : Header :=
  let k := CanonicalHeaderKey key in
  <[k := (default [] (h !! k) ++ [val])%list]> h.

(** [h.Values(key)] *)
Definition Values (h : Header) (key : string) : list string :=
  default [] (h !! CanonicalHeaderKey key).

(** [req.WithContext(ctx)] *)
Definition WithContext (req : Request) (c : Context) : Request :=
  {| Method := Method req; URL := URL req; header := header req;
     Body := Body req; ctx := c |}.

Definition setHeader (req : Request) (h : Header) : Request :=
  {| Method := Method req; URL := URL req; header := h;
     Body := Body req; ctx := ctx req |}.
End http.

(** What the pump takes from outside the package. *)
Record Platform : Type := {
  (** [url.Parse] *)
  url_Parse : string -> url.URL + error;
  (** the [String] method of a URL *)
  URL_String : url.URL -> string;
  (** [tls.LoadX509KeyPair], reading the two files *)
  LoadX509KeyPair : string -> string -> tls.Certificate + error;
  (** [time.Time.MarshalJSON]: the quoted RFC 3339 text, or a failure
      (years outside 0..9999) *)
  Time_MarshalJSON : time.Time -> option string;
  (** The network: the answer to a request sent over the given transport
      ([None]: the default transport), after the requests sent before. *)
  RoundTrip : option http.Transport -> list http.Request -> http.Request
              -> http.Response + error
}.

(** A line handed to the logger. *)
Record LogEntry : Type := { logPrefix : string; logArgs : list value }.

(** The process: [http.DefaultClient], the requests handed to the network so
    far (oldest first), the log. *)
Record World : Type := {
  DefaultClient : http.Client.t;
  wire : list http.Request;
  logged : list LogEntry
}.

Definition setDefaultTransport (w : World) (t : http.Transport) : World :=
  {| DefaultClient := {| http.Client.Transport := Some t |};
     wire := wire w; logged := logged w |}.

Definition pushWire (w : World) (req : http.Request) : World :=
  {| DefaultClient := DefaultClient w; wire := (wire w ++ [req])%list;
     logged := logged w |}.

Definition pushLog (w : World) (e : LogEntry) : World :=
  {| DefaultClient := DefaultClient w; wire := wire w;
     logged := (logged w ++ [e])%list |}.

(** A [*http.Client] as the package can hold one: nil, or the address of
    the process-wide [http.DefaultClient] (line 64 stores no other). *)
Inductive ClientPtr : Type := nilClient | defaultClientPtr.

(** ** Constants (lines 19-29) *)

Definition defaultPath : string := "/services/collector/event/1.0".
Definition authHeaderName : string := "authorization".
Definition authHeaderPrefix : string := "Splunk ".
Definition pumpPrefix : string := "splunk-pump".
Definition pumpName : string := "Splunk Pump".

(** ** SplunkClient (lines 31-88) *)

Record SplunkClient : Type := {
  Token : string;
  CollectorURL : string;
  TLSSkipVerify : bool;
  httpClient : ClientPtr
}.

Record SplunkPump : Type := {
  client : option SplunkClient;        (* nil until Init has succeeded *)
  config : option SplunkPumpConfig
}.

(** The anonymous struct of lines 71-74. *)
Record EventWrap : Type := { Time : Z; Event : gmap string value }.

Section Pump.

Variable P : Platform.
Variable mapping : gmap string value.
Variable obfuscateOperand : SplunkPumpConfig -> Z.

(** Lines 41-67. *)
Definition NewSplunkClient (token collectorURL : string) (skipVerify : bool)
    (certFile keyFile serverName : string) (w : World)
    : (option SplunkClient * option error) * World :=
  if String.eqb token "" || String.eqb collectorURL "" then
    ((None, Some errInvalidSettings), w)
  else
    match url_Parse P collectorURL with
    | inr err => ((None, Some err), w)
    | inl u =>
        let tlsConfig :=
          {| tls.InsecureSkipVerify := skipVerify; tls.Certificates := [];
             tls.ServerName := "" |} in
        let loaded : tls.Config + error :=
          if negb skipVerify then
            match LoadX509KeyPair P certFile keyFile with
            | inr err => inr err
            | inl cert =>
                inl {| tls.InsecureSkipVerify := false;
                       tls.Certificates := [cert];
                       tls.ServerName := serverName |}
            end
          else inl tlsConfig in
        match loaded with
        | inr err => ((None, Some err), w)
        | inl tlsConfig =>
            let w := setDefaultTransport w {| http.TLSClientConfig := tlsConfig |} in
            let u := url.setPath u defaultPath in
            ((Some {| Token := token;
                      CollectorURL := URL_String P u;
                      TLSSkipVerify := false;
                      httpClient := defaultClientPtr |}, None), w)
        end
    end.

(** [encoding/json] on the values of an event. *)
Definition marshalValue (v : value) : option json :=
  match v with
  | VNil => Some JNull
  | VString s => Some (JString s)
  | VInt n => Some (JNumber n)
  | VTime t => JString <$> Time_MarshalJSON P t
  | VChan => None
  end.

Definition marshalable (v : value) : bool :=
  match marshalValue v with Some _ => true | None => false end.

(** [json.Marshal(eventWrap)]: an object with the members [time] and
    [event]; fails when a value of the event cannot be encoded. *)
Definition json_Marshal (eventWrap : EventWrap) : json + error :=
  if forallb (fun kv => marshalable kv.2) (map_to_list (Event eventWrap)) then
    inl (JObject (<["time" := JNumber (Time eventWrap)]>
                 (<["event" := JObject (omap marshalValue (Event eventWrap))]> ∅)))
  else inr ErrJSON.

(** [http.NewRequest(method, url, body)], for a well-formed method. *)
Definition NewRequest (method url : string) (body : json) : http.Request + error :=
  match url_Parse P url with
  | inr err => inr err
  | inl u =>
      inl {| http.Method := method; http.URL := u; http.header := ∅;
             http.Body := body; http.ctx := ctxBackground |}
  end.

(** [c.Do(req)] on a [*http.Client]. *)
Definition Do (c : ClientPtr) (req : http.Request) (w : World)
    : outcome (option http.Response * option error) * World :=
  match c with
  | nilClient => (Panics PanicNilDeref, w)
  | defaultClientPtr =>
      match RoundTrip P (http.Client.Transport (DefaultClient w)) (wire w) req with
      | inl resp => (Returns (Some resp, None), pushWire w req)
      | inr err => (Returns (None, Some err), pushWire w req)
      end
  end.

(** Lines 70-88.  The receiver is a pointer: [None] is a nil client. *)
Definition Send (c : option SplunkClient) (ctx : Context)
    (event : gmap string value) (ts : time.Time) (w : World)
    : outcome (option http.Response * option error) * World :=
  let eventWrap := {| Time := time.Unix ts; Event := event |} in
  match json_Marshal eventWrap with
  | inr err => (Returns (None, Some err), w)
  | inl eventJSON =>
      match c with
      | None => (Panics PanicNilDeref, w)
      | Some c =>
          match NewRequest "POST" (CollectorURL c) eventJSON with
          | inr err => (Returns (None, Some err), w)
          | inl req =>
              let req := http.WithContext req ctx in
              let req :=
                http.setHeader req
                  (http.Add (http.header req) authHeaderName
                            (authHeaderPrefix +:+ Token c)) in
              Do (httpClient c) req w
          end
      end
  end.

(** The loop of lines 147-195. *)
Fixpoint writeLoop (p : SplunkPump) (ctx : Context) (data : list iface) (w : World)
    : outcome unit * World :=
  match data with
  | [] => (Returns tt, w)
  | IRecord decoded :: rest =>
      match config p with
      | None => (Panics PanicNilDeref, w)
      | Some cfg =>
          match buildEvent mapping obfuscateOperand cfg decoded with
          | Panics q => (Panics q, w)
          | Returns event =>
              match Send (client p) ctx event (analytics.TimeStamp decoded) w with
              | (Panics q, w') => (Panics q, w')
              | (Returns _, w') => writeLoop p ctx rest w'
              end
          end
      end
  | _ :: _ => (Panics PanicTypeAssertion, w)
  end.

(** Lines 143-197. *)
Definition WriteData (p : SplunkPump) (ctx : Context) (data : list iface) (w : World)
    : outcome (option error) * World :=
  let w :=
    pushLog w {| logPrefix := pumpPrefix;
                 logArgs := [VString "Writing "; VInt (Z.of_nat (length data));
                             VString " records"] |} in
  match writeLoop p ctx data w with
  | (Panics q, w') => (Panics q, w')
  | (Returns _, w') => (Returns None, w')
  end.

End Pump.

(** ** The driver's entry points (lines 110-140) *)

(** [&SplunkPumpConfig{}] *)
Definition zeroConfig : SplunkPumpConfig :=
  {| Cfg.CollectorToken := ""; Cfg.CollectorURL := "";
     Cfg.SSLInsecureSkipVerify := false; Cfg.SSLCertFile := "";
     Cfg.SSLKeyFile := ""; Cfg.SSLServerName := "";
     Cfg.ObfuscateAPIKeys := false; Cfg.ObfuscateAPIKeysLength := 0;
     Cfg.Fields := [] |}.

(** Lines 111-113: a pump with neither client nor configuration. *)
Definition New : SplunkPump := {| client := None; config := None |}.

(** Lines 116-118. *)
Definition GetName : string := pumpName.

Section Driver.

Variable P : Platform.

(** The configuration as the host hands it over ([interface{}]). *)
Variable RawConfig : Type.

(** [mapstructure.Decode(config, p.config)]: what the structure it was
    given holds afterwards, and the error if any. *)
Variable mapstructure_Decode :
  RawConfig -> SplunkPumpConfig -> SplunkPumpConfig * option error.

(** Lines 121-140.  The pump is updated in place: the result carries the
    pump as [Init] leaves it.  The two log lines are recorded with their
    format strings (their levels, Info and Debug, are not). *)
Definition Init (p : SplunkPump) (rawConfig : RawConfig) (w : World)
    : (option error * SplunkPump) * World :=
  let decoded := mapstructure_Decode rawConfig zeroConfig in
  let cfg := decoded.1 in
  let p := {| client := client p; config := Some cfg |} in
  match decoded.2 with
  | Some err => ((Some err, p), w)
  | None =>
      let w :=
        pushLog w {| logPrefix := pumpPrefix;
                     logArgs := [VString "%s Endpoint: %s"; VString pumpName;
                                 VString (Cfg.CollectorURL cfg)] |} in
      let made :=
        NewSplunkClient P (Cfg.CollectorToken cfg) (Cfg.CollectorURL cfg)
          (Cfg.SSLInsecureSkipVerify cfg) (Cfg.SSLCertFile cfg)
          (Cfg.SSLKeyFile cfg) (Cfg.SSLServerName cfg) w in
      let p := {| client := made.1.1; config := Some cfg |} in
      match made.1.2 with
      | Some err => ((Some err, p), made.2)
      | None =>
          ((None, p),
           pushLog made.2 {| logPrefix := pumpPrefix;
                             logArgs := [VString "%s Initialized"; VString pumpName] |})
      end
  end.

End Driver.

(** The transport a client's sends go through in world [w]: [None] for a
    nil [httpClient]; otherwise the [Transport] field of the client it
    points to, read at the time of the send. *)
Definition transportOf (w : World) (c : SplunkClient)
    : option (option http.Transport) :=
  match httpClient c with
  | nilClient => None
  | defaultClientPtr => Some (http.Client.Transport (DefaultClient w))
  end.

(** The body [Send] puts on the wire for an event whose values encode. *)
Definition wireBody (P : Platform) (event : gmap string value) (ts : time.Time) : json :=
  JObject (<["time" := JNumber (time.Unix ts)]>
          (<["event" := JObject (omap (marshalValue P) event)]> ∅)).

(** Modelled from the spec: the registry [mapping] is not declared in src/.
    The specification describes it as the fixed registry from the fourteen
    field names to their accessors over the current record; this is that
    registry with the accessors applied to [r]. *)
Definition specMapping (r : AnalyticsRecord) : gmap string value := defaultEvent r.

(** ** A test double of the platform, and sample data *)

Definition sampleURL (path : string) : url.URL :=
  {| url.Scheme := "https"; url.Opaque := ""; url.User := None;
     url.Host := "h:8088"; url.Path := path; url.RawPath := "";
     url.RawQuery := ""; url.Fragment := "" |}.

(** Knows three URLs; everything else does not parse. *)
Definition sampleParse (s : string) : url.URL + error :=
  if String.eqb s "https://h:8088" then inl (sampleURL "")
  else if String.eqb s "https://h:8088/some/path" then inl (sampleURL "/some/path")
  else if String.eqb s "https://h:8088/services/collector/event/1.0"
       then inl (sampleURL defaultPath)
  else inr (ErrURL "parse").

Definition sampleString (u : url.URL) : string :=
  url.Scheme u +:+ "://" +:+ url.Host u +:+ url.Path u.

(** One key pair on disk. *)
Definition sampleLoad (certFile keyFile : string) : tls.Certificate + error :=
  if String.eqb certFile "client.crt" && String.eqb keyFile "client.key"
  then inl (tls.X509KeyPair "CERT" "KEY")
  else inr (ErrTLS "open: no such file or directory").

Definition sampleTimeJSON (t : time.Time) : option string :=
  if (0 <=? time.unixSec t) && (time.unixSec t <? 253402300800)
  then Some "2017-07-14T02:40:00Z" else None.

(** A collector that answers 200. *)
Definition upRoundTrip (t : option http.Transport) (sent : list http.Request)
    (req : http.Request) : http.Response + error :=
  inl {| http.StatusCode := 200; http.RespBody := "{}" |}.

(** A collector that cannot be reached. *)
Definition downRoundTrip (t : option http.Transport) (sent : list http.Request)
    (req : http.Request) : http.Response + error :=
  inr (ErrTransport "connection refused").

Definition samplePlatform : Platform :=
  {| url_Parse := sampleParse; URL_String := sampleString;
     LoadX509KeyPair := sampleLoad; Time_MarshalJSON := sampleTimeJSON;
     RoundTrip := upRoundTrip |}.

Definition downPlatform : Platform :=
  {| url_Parse := sampleParse; URL_String := sampleString;
     LoadX509KeyPair := sampleLoad; Time_MarshalJSON := sampleTimeJSON;
     RoundTrip := downRoundTrip |}.

Definition world0 : World :=
  {| DefaultClient := {| http.Client.Transport := None |}; wire := []; logged := [] |}.

Definition sampleRecord : AnalyticsRecord :=
  {| analytics.Method := "GET"; analytics.Path := "/x"; analytics.ResponseCode := 200;
     analytics.APIKey := "1234567890";
     analytics.TimeStamp := {| time.unixSec := 1500000000; time.nsec := 0 |};
     analytics.APIVersion := "v1"; analytics.APIName := "api"; analytics.APIID := "id1";
     analytics.OrgID := "org"; analytics.OauthID := "oa"; analytics.RawRequest := "req";
     analytics.RequestTime := 12; analytics.RawResponse := "resp";
     analytics.IPAddress := "10.0.0.1" |}.

Definition sampleCfg (fields : list string) (obf : bool) (n : Z) : SplunkPumpConfig :=
  {| Cfg.CollectorToken := "tok"; Cfg.CollectorURL := "https://h:8088";
     Cfg.SSLInsecureSkipVerify := true; Cfg.SSLCertFile := ""; Cfg.SSLKeyFile := "";
     Cfg.SSLServerName := ""; Cfg.ObfuscateAPIKeys := obf;
     Cfg.ObfuscateAPIKeysLength := n; Cfg.Fields := fields |}.

Definition sampleClient : SplunkClient :=
  {| Token := "tok"; CollectorURL := "https://h:8088/services/collector/event/1.0";
     TLSSkipVerify := false; httpClient := defaultClientPtr |}.

Definition samplePump (cfg : SplunkPumpConfig) : SplunkPump :=
  {| client := Some sampleClient; config := Some cfg |}.

(** ** Auxiliary definitions for the statements *)

(** The redacted value of lines 166-167 for key [K] and operand [n]:
    present only for [n < len K]. *)
Definition redacted (K : string) (n : Z) : option value :=
  if n <? len K
  then Some (VString ("****" +:+
               String.substring (String.length K - Z.to_nat n) (Z.to_nat n) K))
  else None.

(** The TLS configuration that a call of [NewSplunkClient] arrives at
    (lines 49-57), when it gets that far. *)
Definition tlsConfigFor (P : Platform) (skipVerify : bool) (certFile keyFile serverName : string)
    : tls.Config + error :=
  if skipVerify then
    inl {| tls.InsecureSkipVerify := true; tls.Certificates := [];
           tls.ServerName := "" |}
  else
    match LoadX509KeyPair P certFile keyFile with
    | inr err => inr err
    | inl cert =>
        inl {| tls.InsecureSkipVerify := false; tls.Certificates := [cert];
               tls.ServerName := serverName |}
    end.

(** The request of lines 81-86 for client [c], whose endpoint parses to [u]. *)
Definition requestOf (c : SplunkClient) (u : url.URL) (ctx : Context) (body : json)
    : http.Request :=
  {| http.Method := "POST"; http.URL := u;
     http.header := {[ "Authorization" := [authHeaderPrefix +:+ Token c] ]};
     http.Body := body; http.ctx := ctx |}.

(** A world with another log. *)
Definition withLog (w : World) (l : list LogEntry) : World :=
  {| DefaultClient := DefaultClient w; wire := wire w; logged := l |}.

(** The line logged at lines 144-146 for a batch. *)
Definition writingEntry (data : list iface) : LogEntry :=
  {| logPrefix := pumpPrefix;
     logArgs := [VString "Writing "; VInt (Z.of_nat (length data)); VString " records"] |}.

(** The fourteen values of the default event are those of the record. *)
Definition verbatim (r : AnalyticsRecord) (ev : gmap string value) : Prop :=
  ev !! "method" = Some (VString (analytics.Method r))
  ∧ ev !! "path" = Some (VString (analytics.Path r))
  ∧ ev !! "response_code" = Some (VInt (analytics.ResponseCode r))
  ∧ ev !! "api_key" = Some (VString (analytics.APIKey r))
  ∧ ev !! "time_stamp" = Some (VTime (analytics.TimeStamp r))
  ∧ ev !! "api_version" = Some (VString (analytics.APIVersion r))
  ∧ ev !! "api_name" = Some (VString (analytics.APIName r))
  ∧ ev !! "api_id" = Some (VString (analytics.APIID r))
  ∧ ev !! "org_id" = Some (VString (analytics.OrgID r))
  ∧ ev !! "oauth_id" = Some (VString (analytics.OauthID r))
  ∧ ev !! "raw_request" = Some (VString (analytics.RawRequest r))
  ∧ ev !! "request_time" = Some (VInt (analytics.RequestTime r))
  ∧ ev !! "raw_response" = Some (VString (analytics.RawResponse r))
  ∧ ev !! "ip_address" = Some (VString (analytics.IPAddress r)).

(** Two differently configured pumps that agree on the projection. *)
Definition otherCfg : SplunkPumpConfig :=
  {| Cfg.CollectorToken := "other"; Cfg.CollectorURL := "https://h:8088/some/path";
     Cfg.SSLInsecureSkipVerify := false; Cfg.SSLCertFile := "client.crt";
     Cfg.SSLKeyFile := "client.key"; Cfg.SSLServerName := "splunk.local";
     Cfg.ObfuscateAPIKeys := true; Cfg.ObfuscateAPIKeysLength := 4;
     Cfg.Fields := ["api_key"; "bogus"] |}.

(** What line 154-173 leave under name [k] in the event of [r], when
    they return: nothing for a name that was not requested or that the
    registry holds; for the API key under obfuscation, the redacted key if
    there is one; the zero value otherwise. *)
Definition projected (mapping : gmap string value) (operand : SplunkPumpConfig -> Z)
    (cfg : SplunkPumpConfig) (r : AnalyticsRecord) (k : string) : option value :=
  if bool_decide (k ∈ Cfg.Fields cfg) then
    match mapping !! k with
    | Some _ => None
    | None =>
        if String.eqb k "api_key" && Cfg.ObfuscateAPIKeys cfg
        then redacted (analytics.APIKey r) (operand cfg)
        else Some VNil
    end
  else None.

(** The values an explicit projection can store: nil, or the mask followed
    by a tail of the API key. *)
Definition maskedOrNil (r : AnalyticsRecord) (k : string) (v : value) : Prop :=
  v = VNil
  ∨ (k = "api_key"
     ∧ ∃ i suffix, slice_from (analytics.APIKey r) i = Returns suffix
                   ∧ v = VString ("****" +:+ suffix)).

(** A decoder for the samples: the raw configuration is the configuration
    itself; when [strict] is set, one without a token is refused and the
    structure is left as it was. *)
Definition sampleDecode (strict : bool) (raw : SplunkPumpConfig) (into : SplunkPumpConfig)
    : SplunkPumpConfig * option error :=
  if strict && String.eqb (Cfg.CollectorToken raw) ""
  then (into, Some ErrJSON)
  else (raw, None).

(** Two more records: a later one, and one stamped beyond year 9999. *)
Definition laterRecord : AnalyticsRecord :=
  {| analytics.Method := "POST"; analytics.Path := "/y"; analytics.ResponseCode := 500;
     analytics.APIKey := "abc";
     analytics.TimeStamp := {| time.unixSec := 1500000060; time.nsec := 5 |};
     analytics.APIVersion := "v2"; analytics.APIName := "api"; analytics.APIID := "id1";
     analytics.OrgID := "org"; analytics.OauthID := ""; analytics.RawRequest := "";
     analytics.RequestTime := 3; analytics.RawResponse := "";
     analytics.IPAddress := "10.0.0.2" |}.

Definition farRecord : AnalyticsRecord :=
  {| analytics.Method := "GET"; analytics.Path := "/z"; analytics.ResponseCode := 200;
     analytics.APIKey := "k";
     analytics.TimeStamp := {| time.unixSec := 253402300800; time.nsec := 0 |};
     analytics.APIVersion := ""; analytics.APIName := ""; analytics.APIID := "";
     analytics.OrgID := ""; analytics.OauthID := ""; analytics.RawRequest := "";
     analytics.RequestTime := 0; analytics.RawResponse := "";
     analytics.IPAddress := "" |}.

(** The two lines [Init] hands to the logger. *)
Definition endpointEntry (cfg : SplunkPumpConfig) : LogEntry :=
  {| logPrefix := pumpPrefix;
     logArgs := [VString "%s Endpoint: %s"; VString pumpName;
                 VString (Cfg.CollectorURL cfg)] |}.

Definition initializedEntry : LogEntry :=
  {| logPrefix := pumpPrefix;
     logArgs := [VString "%s Initialized"; VString pumpName] |}.

(** A configuration without a collector URL. *)
Definition noURLCfg : SplunkPumpConfig :=
  {| Cfg.CollectorToken := "tok"; Cfg.CollectorURL := "";
     Cfg.SSLInsecureSkipVerify := true; Cfg.SSLCertFile := "";
     Cfg.SSLKeyFile := ""; Cfg.SSLServerName := "";
     Cfg.ObfuscateAPIKeys := false; Cfg.ObfuscateAPIKeysLength := 0;
     Cfg.Fields := [] |}.

(** ** A platform whose URLs render as Go's do *)









(** * Properties *)

(** ** The transformer *)

Section TransformerFacts.

Variable mapping : gmap string value.
Variable obfuscateOperand : SplunkPumpConfig -> Z.

(** A name the registry holds is passed over (line 158-160). *)
Lemma projectField_registered cfg r ev f :
  is_Some (mapping !! f) → projectField mapping obfuscateOperand cfg r ev f = Returns ev.
Proof. intros [v Hv]. unfold projectField. by rewrite Hv. Qed.

(** A turn of the loop writes, if at all, at the name it was given, and
    only when the registry does not hold that name. *)
Lemma projectField_frame cfg r ev ev' f k :
  projectField mapping obfuscateOperand cfg r ev f = Returns ev' →
  is_Some (mapping !! k) ∨ k ≠ f →
  ev' !! k = ev !! k.
Proof.
  unfold projectField. intros Hstep Hk.
  destruct (mapping !! f) as [v|] eqn:Hf.
  - by inversion Hstep.
  - assert (k ≠ f) as Hne.
    { destruct Hk as [[v Hv]|Hne]; [|done]. intros ->. congruence. }
    destruct (String.eqb f "api_key" && Cfg.ObfuscateAPIKeys cfg).
    + destruct (obfuscateOperand cfg <? len (analytics.APIKey r)).
      * destruct (slice_from _ _); inversion Hstep; subst.
        by rewrite lookup_insert_ne.
      * by inversion Hstep.
    + inversion Hstep; subst. by rewrite lookup_insert_ne.
Qed.

Lemma projectFields_frame cfg r fields : ∀ ev ev' k,
  projectFields mapping obfuscateOperand cfg r fields ev = Returns ev' →
  is_Some (mapping !! k) ∨ k ∉ fields →
  ev' !! k = ev !! k.
Proof.
  induction fields as [|f rest IH]; simpl; intros ev ev' k Hrun Hk.
  - by inversion Hrun.
  - destruct (projectField mapping obfuscateOperand cfg r ev f) as [ev1|q] eqn:Hstep; [|done].
    rewrite (IH ev1 ev' k Hrun).
    + apply (projectField_frame _ _ _ _ _ _ Hstep).
      destruct Hk as [?|Hk]; [by left|right]. set_solver.
    + destruct Hk as [?|Hk]; [by left|right]. set_solver.
Qed.

(** Requested names the registry holds never reach the event. *)
Lemma registered_not_emitted cfg r ev k :
  Cfg.Fields cfg ≠ [] →
  buildEvent mapping obfuscateOperand cfg r = Returns ev →
  is_Some (mapping !! k) →
  ev !! k = None.
Proof.
  unfold buildEvent. intros Hne Hrun Hk.
  destruct (Cfg.Fields cfg) as [|f rest] eqn:Hfields; [done|].
  change (0 <? Z.of_nat (length (f :: rest))) with true in Hrun. cbv iota in Hrun.
  rewrite (projectFields_frame _ _ _ _ _ _ Hrun); [apply lookup_empty|by left].
Qed.

(** A turn of the loop on a name that is not registered, outside the
    redaction case, stores the zero value under that name. *)
Lemma projectField_unregistered cfg r ev f :
  mapping !! f = None →
  f ≠ "api_key" ∨ Cfg.ObfuscateAPIKeys cfg = false →
  projectField mapping obfuscateOperand cfg r ev f = Returns (<[f := VNil]> ev).
Proof.
  intros Hf Hcase. unfold projectField, index. rewrite Hf. simpl.
  destruct Hcase as [Hne | ->].
  - apply String.eqb_neq in Hne. by rewrite Hne.
  - by rewrite andb_false_r.
Qed.

Lemma projectFields_unregistered cfg r k fields : ∀ ev ev',
  mapping !! k = None →
  k ≠ "api_key" ∨ Cfg.ObfuscateAPIKeys cfg = false →
  projectFields mapping obfuscateOperand cfg r fields ev = Returns ev' →
  ev !! k = Some VNil ∨ k ∈ fields →
  ev' !! k = Some VNil.
Proof.
  induction fields as [|f rest IH]; simpl; intros ev ev' Hk Hcase Hrun Hin.
  - inversion Hrun; subst. destruct Hin as [?|Hin]; [done|]. by apply elem_of_nil in Hin.
  - destruct (projectField mapping obfuscateOperand cfg r ev f) as [ev1|q] eqn:Hstep; [|done].
    apply (IH ev1 ev' Hk Hcase Hrun).
    destruct (decide (k = f)) as [->|Hne].
    + left. rewrite (projectField_unregistered _ _ _ _ Hk Hcase) in Hstep.
      inversion Hstep; subst. apply lookup_insert_eq.
    + destruct Hin as [Hev|Hin].
      * left. rewrite (projectField_frame _ _ _ _ _ _ Hstep); [done|by right].
      * right. apply elem_of_cons in Hin. destruct Hin; [congruence|done].
Qed.

(** Requested names the registry does not hold are stored, with the zero
    value (line 171). *)
Lemma unregistered_emitted cfg r ev k :
  buildEvent mapping obfuscateOperand cfg r = Returns ev →
  k ∈ Cfg.Fields cfg →
  mapping !! k = None →
  k ≠ "api_key" ∨ Cfg.ObfuscateAPIKeys cfg = false →
  ev !! k = Some VNil.
Proof.
  unfold buildEvent. intros Hrun Hin Hk Hcase.
  destruct (Cfg.Fields cfg) as [|f rest] eqn:Hfields.
  { by apply elem_of_nil in Hin. }
  change (0 <? Z.of_nat (length (f :: rest))) with true in Hrun. cbv iota in Hrun.
  apply (projectFields_unregistered _ _ _ _ _ _ Hk Hcase Hrun). by right.
Qed.

Lemma wrap64_small z : 0 ≤ z < 2 ^ 63 → wrap64 z = z.
Proof. intros Hz. unfold wrap64. rewrite Z.mod_small; lia. Qed.

Lemma slice_from_suffix s n :
  0 ≤ n < len s → len s < 2 ^ 63 →
  slice_from s (wrap64 (len s - n))
  = Returns (String.substring (String.length s - Z.to_nat n) (Z.to_nat n) s).
Proof.
  intros Hn Hs. rewrite wrap64_small by lia. unfold slice_from.
  destruct (len s - n <? 0) eqn:H1; [lia|].
  destruct (len s <? len s - n) eqn:H2; [lia|]. simpl.
  unfold len in *. do 2 f_equal; lia.
Qed.

Lemma projectField_redact cfg r ev :
  mapping !! "api_key" = None →
  Cfg.ObfuscateAPIKeys cfg = true →
  0 ≤ obfuscateOperand cfg → len (analytics.APIKey r) < 2 ^ 63 →
  ∃ ev', projectField mapping obfuscateOperand cfg r ev "api_key" = Returns ev'
         ∧ (∀ k, k ≠ "api_key" → ev' !! k = ev !! k)
         ∧ (ev' !! "api_key" = redacted (analytics.APIKey r) (obfuscateOperand cfg)
            ∨ (ev' !! "api_key" = ev !! "api_key"
               ∧ redacted (analytics.APIKey r) (obfuscateOperand cfg) = None)).
Proof.
  intros Hk Hflag Hn HK. unfold projectField, redacted. rewrite Hk, Hflag. simpl.
  destruct (obfuscateOperand cfg <? len (analytics.APIKey r)) eqn:Hlt.
  - rewrite slice_from_suffix by lia. eexists. split; [done|]. split.
    + intros k Hne. by rewrite lookup_insert_ne.
    + left. apply lookup_insert_eq.
  - eexists. split; [done|]. split; [done|]. by right.
Qed.

(** With the API key outside the registry, the redaction of lines 163-168
    is what reaches the event. *)
Lemma projectFields_redact cfg r fields : ∀ ev,
  mapping !! "api_key" = None →
  Cfg.ObfuscateAPIKeys cfg = true →
  0 ≤ obfuscateOperand cfg → len (analytics.APIKey r) < 2 ^ 63 →
  ev !! "api_key" = None →
  ∃ ev', projectFields mapping obfuscateOperand cfg r fields ev = Returns ev'
         ∧ ("api_key" ∈ fields →
            ev' !! "api_key" = redacted (analytics.APIKey r) (obfuscateOperand cfg))
         ∧ ("api_key" ∉ fields → ev' !! "api_key" = None).
Proof.
  intros ev Hk Hflag Hn HK.
  set (target := redacted (analytics.APIKey r) (obfuscateOperand cfg)).
  enough (∀ ev, ev !! "api_key" = None ∨ ev !! "api_key" = target →
          ∃ ev', projectFields mapping obfuscateOperand cfg r fields ev = Returns ev'
                 ∧ ("api_key" ∈ fields ∨ ev !! "api_key" = target
                    → ev' !! "api_key" = target)
                 ∧ ("api_key" ∉ fields → ev' !! "api_key" = ev !! "api_key")) as Hgen.
  { intros Hev. destruct (Hgen ev (or_introl Hev)) as (ev' & Hrun & Hin & Hout).
    exists ev'. split; [done|]. split; [by auto|]. intros ?. rewrite Hout; done. }
  clear ev. induction fields as [|f rest IH]; intros ev Hev; simpl.
  - exists ev. split; [done|]. split; [|done].
    intros [Hin|?]; [by apply elem_of_nil in Hin|done].
  - destruct (decide (f = "api_key")) as [->|Hne].
    + destruct (projectField_redact cfg r ev Hk Hflag Hn HK) as (ev1 & -> & _ & Hkey).
      fold target in Hkey.
      assert (ev1 !! "api_key" = target) as H1.
      { destruct Hkey as [?|[Heq Hnone]]; [done|].
        rewrite Heq. destruct Hev as [->| ->]; done. }
      destruct (IH ev1 (or_intror H1)) as (ev' & Hrun & Hin & _).
      exists ev'. split; [done|]. split; [by auto|].
      intros Hnot. exfalso. apply Hnot. by left.
    + destruct (projectField mapping obfuscateOperand cfg r ev f) as [ev1|q] eqn:Hstep.
      * assert (ev1 !! "api_key" = ev !! "api_key") as H1.
        { apply (projectField_frame _ _ _ _ _ _ Hstep). right. congruence. }
        destruct (IH ev1) as (ev' & Hrun & Hin & Hout); [by rewrite H1|].
        exists ev'. split; [done|]. rewrite H1 in *. split.
        -- intros [Hmem|?]; [|by auto].
           apply elem_of_cons in Hmem as [?|?]; [congruence|by auto].
        -- intros Hnot. apply Hout. intros ?. apply Hnot. by right.
      * exfalso. unfold projectField in Hstep.
        destruct (mapping !! f); [done|].
        apply String.eqb_neq in Hne. rewrite Hne in Hstep. done.
Qed.

(** The transformer returns an event, rather than panicking on the slice
    of line 167, as soon as that slice is out of reach or in bounds. *)
Lemma buildEvent_returns cfg r :
  is_Some (mapping !! "api_key")
  ∨ Cfg.ObfuscateAPIKeys cfg = false
  ∨ (0 ≤ obfuscateOperand cfg ∧ len (analytics.APIKey r) < 2 ^ 63) →
  ∃ ev, buildEvent mapping obfuscateOperand cfg r = Returns ev.
Proof.
  intros Hsafe. unfold buildEvent.
  destruct (0 <? Z.of_nat (length (Cfg.Fields cfg))); [|by eexists].
  generalize (∅ : gmap string value).
  induction (Cfg.Fields cfg) as [|f rest IH]; intros ev; simpl; [by eexists|].
  assert (∃ ev1, projectField mapping obfuscateOperand cfg r ev f = Returns ev1)
    as [ev1 ->]; [|apply IH].
  unfold projectField. destruct (mapping !! f) as [v|] eqn:Hf; [by eexists|].
  destruct (String.eqb f "api_key") eqn:Hname; simpl; [|by eexists].
  apply String.eqb_eq in Hname. subst f.
  destruct (Cfg.ObfuscateAPIKeys cfg) eqn:Hflag; [|by eexists].
  destruct Hsafe as [[v Hv]|[?|[Hn HK]]]; [congruence|done|].
  destruct (obfuscateOperand cfg <? len (analytics.APIKey r)) eqn:Hlt; [|by eexists].
  rewrite slice_from_suffix by lia. by eexists.
Qed.

(** The event is decided by the field list, the obfuscation flag and the
    integer operand of the redaction, and by nothing else in the
    configuration. *)
Lemma buildEvent_projection_only cfg1 cfg2 r :
  Cfg.Fields cfg1 = Cfg.Fields cfg2 →
  Cfg.ObfuscateAPIKeys cfg1 = Cfg.ObfuscateAPIKeys cfg2 →
  obfuscateOperand cfg1 = obfuscateOperand cfg2 →
  buildEvent mapping obfuscateOperand cfg1 r = buildEvent mapping obfuscateOperand cfg2 r.
Proof.
  intros Hf Hflag Hn. unfold buildEvent. rewrite Hf. clear Hf.
  destruct (0 <? Z.of_nat (length (Cfg.Fields cfg2))); [|done].
  generalize (∅ : gmap string value).
  induction (Cfg.Fields cfg2) as [|f rest IH]; intros ev; simpl; [done|].
  assert (projectField mapping obfuscateOperand cfg1 r ev f
          = projectField mapping obfuscateOperand cfg2 r ev f) as ->.
  { unfold projectField. by rewrite Hflag, Hn. }
  destruct (projectField mapping obfuscateOperand cfg2 r ev f); [apply IH|done].
Qed.

End TransformerFacts.

(** ** The transport client *)

Section ClientFacts.

Variable P : Platform.

(** The three ways out of [NewSplunkClient] before line 58, and the one
    after it. *)
Lemma NewSplunkClient_cases token collectorURL skipVerify certFile keyFile serverName w :
  NewSplunkClient P token collectorURL skipVerify certFile keyFile serverName w =
    if String.eqb token "" || String.eqb collectorURL "" then
      ((None, Some errInvalidSettings), w)
    else
      match url_Parse P collectorURL with
      | inr err => ((None, Some err), w)
      | inl u =>
          match tlsConfigFor P skipVerify certFile keyFile serverName with
          | inr err => ((None, Some err), w)
          | inl tlsConfig =>
              ((Some {| Token := token;
                        CollectorURL := URL_String P (url.setPath u defaultPath);
                        TLSSkipVerify := false;
                        httpClient := defaultClientPtr |}, None),
               setDefaultTransport w {| http.TLSClientConfig := tlsConfig |})
          end
      end.
Proof.
  unfold NewSplunkClient, tlsConfigFor.
  destruct (String.eqb token "" || String.eqb collectorURL ""); [done|].
  destruct (url_Parse P collectorURL) as [u|err]; [|done].
  destruct skipVerify; simpl; [done|].
  by destruct (LoadX509KeyPair P certFile keyFile).
Qed.

Lemma tlsConfigFor_error skipVerify certFile keyFile serverName :
  (∃ err, tlsConfigFor P skipVerify certFile keyFile serverName = inr err)
  ↔ skipVerify = false ∧ ∃ err, LoadX509KeyPair P certFile keyFile = inr err.
Proof.
  unfold tlsConfigFor. destruct skipVerify.
  - split; [intros [? ?]; done|intros [? _]; done].
  - destruct (LoadX509KeyPair P certFile keyFile) as [kp|e].
    + split; [intros [? ?]; done|intros [_ [? ?]]; done].
    + split; eauto.
Qed.

Lemma eqb_empty_or (a b : string) :
  String.eqb a "" || String.eqb b "" = true ↔ a = "" ∨ b = "".
Proof.
  rewrite orb_true_iff. by rewrite !String.eqb_eq.
Qed.

End ClientFacts.

(** ** Send *)

Section SendFacts.

Variable P : Platform.

Lemma json_Marshal_inl (eventWrap : EventWrap) :
  (∀ k v, Event eventWrap !! k = Some v → marshalable P v = true) →
  json_Marshal P eventWrap
  = inl (JObject (<["time" := JNumber (Time eventWrap)]>
                 (<["event" := JObject (omap (marshalValue P) (Event eventWrap))]> ∅))).
Proof.
  intros Hall. unfold json_Marshal.
  replace (forallb _ _) with true; [done|].
  symmetry. apply forallb_forall. intros [k v] Hin.
  apply list_elem_of_In, elem_of_map_to_list in Hin. by apply (Hall k v).
Qed.

Lemma json_Marshal_inr (eventWrap : EventWrap) k v :
  Event eventWrap !! k = Some v → marshalable P v = false →
  json_Marshal P eventWrap = inr ErrJSON.
Proof.
  intros Hk Hv. unfold json_Marshal.
  destruct (forallb _ _) eqn:Hall; [|done].
  rewrite forallb_forall in Hall.
  specialize (Hall (k, v)). simpl in Hall. rewrite Hall in Hv; [done|].
  by apply list_elem_of_In, elem_of_map_to_list.
Qed.

Lemma Add_authorization (val : string) :
  http.Add ∅ authHeaderName val = {[ "Authorization" := [val] ]}.
Proof.
  unfold http.Add.
  change (http.CanonicalHeaderKey authHeaderName) with "Authorization".
  rewrite lookup_empty. simpl. apply insert_empty.
Qed.

(** With an event that encodes and an endpoint that parses, [Send] comes
    down to the one call of [Do] of line 87. *)
Lemma Send_request c ctx event ts w u :
  (∀ k v, event !! k = Some v → marshalable P v = true) →
  url_Parse P (CollectorURL c) = inl u →
  Send P (Some c) ctx event ts w
  = Do P (httpClient c) (requestOf c u ctx (wireBody P event ts)) w.
Proof.
  intros Henc Hurl. unfold Send.
  rewrite json_Marshal_inl by done. unfold NewRequest. rewrite Hurl. simpl.
  unfold http.setHeader, http.WithContext. simpl.
  by rewrite Add_authorization.
Qed.

(** An event with a value that does not encode is not sent (lines 77-79). *)
Lemma Send_unencodable c ctx event ts w k v :
  event !! k = Some v → marshalable P v = false →
  Send P c ctx event ts w = (Returns (None, Some ErrJSON), w).
Proof.
  intros Hk Hv. unfold Send.
  by rewrite (json_Marshal_inr {| Time := time.Unix ts; Event := event |} k v).
Qed.

(** [Send] on a constructed client returns; it touches neither the default
    client nor the log. *)
Lemma Send_returns c ctx event ts w :
  httpClient c = defaultClientPtr →
  ∃ res w', Send P (Some c) ctx event ts w = (Returns res, w').
Proof.
  intros Hptr. unfold Send. destruct (json_Marshal P _); [|by eauto].
  destruct (NewRequest P _ _ _); [|by eauto].
  rewrite Hptr. unfold Do. destruct (RoundTrip P _ _ _); by eauto.
Qed.

Lemma Send_withLog c ctx event ts w l :
  Send P c ctx event ts (withLog w l)
  = ((Send P c ctx event ts w).1, withLog (Send P c ctx event ts w).2 l).
Proof.
  unfold Send. destruct (json_Marshal P _); [|done].
  destruct c as [c|]; [|done].
  destruct (NewRequest P _ _ _); [|done].
  unfold Do. destruct (httpClient c); [done|]. simpl.
  by destruct (RoundTrip P _ _ _).
Qed.

End SendFacts.

(** ** WriteData *)

Section WriteDataFacts.

Variable P : Platform.
Variable mapping : gmap string value.
Variable obfuscateOperand : SplunkPumpConfig -> Z.

Lemma writeLoop_withLog p ctx data : ∀ w l,
  writeLoop P mapping obfuscateOperand p ctx data (withLog w l)
  = ((writeLoop P mapping obfuscateOperand p ctx data w).1,
     withLog (writeLoop P mapping obfuscateOperand p ctx data w).2 l).
Proof.
  induction data as [|v rest IH]; intros w l; simpl; [done|].
  destruct v as [decoded| |]; [|done|done].
  destruct (config p) as [cfg|]; [|done].
  destruct (buildEvent mapping obfuscateOperand cfg decoded) as [event|q]; [|done].
  rewrite Send_withLog.
  destruct (Send P (client p) ctx event (analytics.TimeStamp decoded) w) as [[res|q] w'];
    simpl; [apply IH|done].
Qed.

(** [WriteData] is its loop, its outcome turned into the [nil] of line 196,
    with one more line in the log. *)
Lemma WriteData_loop p ctx data w :
  WriteData P mapping obfuscateOperand p ctx data w
  = (match (writeLoop P mapping obfuscateOperand p ctx data w).1 with
     | Panics q => Panics q
     | Returns _ => Returns None
     end,
     withLog (writeLoop P mapping obfuscateOperand p ctx data w).2
             (logged w ++ [writingEntry data])%list).
Proof.
  unfold WriteData.
  change (pushLog w _) with (withLog w (logged w ++ [writingEntry data])%list).
  rewrite writeLoop_withLog.
  by destruct (writeLoop P mapping obfuscateOperand p ctx data w) as [[u|q] w'].
Qed.

(** The loop over a batch in two parts: the second part runs only if the
    first returned, and from the world the first one left. *)
Lemma writeLoop_app p ctx pre rest : ∀ w,
  writeLoop P mapping obfuscateOperand p ctx (pre ++ rest) w
  = match writeLoop P mapping obfuscateOperand p ctx pre w with
    | (Panics q, w') => (Panics q, w')
    | (Returns _, w') => writeLoop P mapping obfuscateOperand p ctx rest w'
    end.
Proof.
  induction pre as [|v pre IH]; intros w; simpl; [done|].
  destruct v as [decoded| |]; [|done|done].
  destruct (config p) as [cfg|]; [|done].
  destruct (buildEvent mapping obfuscateOperand cfg decoded) as [event|q]; [|done].
  destruct (Send P (client p) ctx event (analytics.TimeStamp decoded) w) as [[res|q] w'];
    [apply IH|done].
Qed.

(** The type assertion of line 148 stops the loop where it fails. *)
Lemma writeLoop_not_record p ctx x post w :
  isRecord x = false →
  writeLoop P mapping obfuscateOperand p ctx (x :: post) w = (Panics PanicTypeAssertion, w).
Proof. by destruct x. Qed.

Lemma writeLoop_stops p ctx pre x post w :
  isRecord x = false →
  (writeLoop P mapping obfuscateOperand p ctx (pre ++ x :: post) w).2
  = (writeLoop P mapping obfuscateOperand p ctx pre w).2
  ∧ (∃ q, (writeLoop P mapping obfuscateOperand p ctx (pre ++ x :: post) w).1 = Panics q)
  ∧ ((writeLoop P mapping obfuscateOperand p ctx pre w).1 = Returns tt →
     (writeLoop P mapping obfuscateOperand p ctx (pre ++ x :: post) w).1
     = Panics PanicTypeAssertion).
Proof.
  intros Hx. rewrite writeLoop_app.
  destruct (writeLoop P mapping obfuscateOperand p ctx pre w) as [[[]|q] w'].
  - rewrite writeLoop_not_record by done. simpl. eauto.
  - simpl. split; [done|]. split; [by eauto|done].
Qed.

(** The loop returns only on a batch of records. *)
Lemma writeLoop_returned p ctx data : ∀ w,
  returned (writeLoop P mapping obfuscateOperand p ctx data w).1 = true →
  Forall (λ v, isRecord v = true) data.
Proof.
  induction data as [|v rest IH]; intros w Hret; [constructor|].
  destruct v as [decoded| |]; [|done|done].
  constructor; [done|]. simpl in Hret.
  destruct (config p) as [cfg|]; [|done].
  destruct (buildEvent mapping obfuscateOperand cfg decoded) as [event|q]; [|done].
  destruct (Send P (client p) ctx event (analytics.TimeStamp decoded) w) as [[res|q] w'];
    [by apply (IH w')|done].
Qed.

(** On a batch of records whose events can be built, an initialised pump
    gets through the loop, whatever the sends come to. *)
Lemma writeLoop_records p ctx c cfg rs :
  client p = Some c → httpClient c = defaultClientPtr → config p = Some cfg →
  (∀ r, r ∈ rs → ∃ ev, buildEvent mapping obfuscateOperand cfg r = Returns ev) →
  ∀ w, (writeLoop P mapping obfuscateOperand p ctx (IRecord <$> rs) w).1 = Returns tt.
Proof.
  intros Hc Hptr Hcfg. induction rs as [|r rs IH]; intros Hev w; simpl; [done|].
  rewrite Hcfg. destruct (Hev r) as [ev ->]; [by left|].
  rewrite Hc.
  destruct (Send_returns P c ctx ev (analytics.TimeStamp r) w Hptr) as (res & w' & ->).
  apply IH. intros r' Hr'. apply Hev. by right.
Qed.

(** One turn of the loop on a record: the event is built without touching
    the world, and handed to [Send] in the world the turn started from. *)
Lemma writeLoop_record p ctx cfg decoded rest w :
  config p = Some cfg →
  writeLoop P mapping obfuscateOperand p ctx (IRecord decoded :: rest) w
  = match buildEvent mapping obfuscateOperand cfg decoded with
    | Panics q => (Panics q, w)
    | Returns event =>
        match Send P (client p) ctx event (analytics.TimeStamp decoded) w with
        | (Panics q, w') => (Panics q, w')
        | (Returns _, w') => writeLoop P mapping obfuscateOperand p ctx rest w'
        end
    end.
Proof. intros Hcfg. simpl. by rewrite Hcfg. Qed.

End WriteDataFacts.

(** * Specification statements *)

(** ** Field projection *)

Lemma defaultEvent_verbatim r : verbatim r (defaultEvent r).
Proof. repeat split; reflexivity. Qed.

Lemma defaultEvent_dom r : dom (defaultEvent r) = list_to_set defaultKeys.
Proof. reflexivity. Qed.

Lemma defaultEvent_size r : size (defaultEvent r) = 14%nat.
Proof. reflexivity. Qed.

(** C1, at fields = ["method"; "bogus"] with the registry of the fourteen
    names: the registered name [method] is passed over and the unknown name
    [bogus] is stored with a nil value, the reverse of what the comment of
    line 157 announces. *)
Theorem registry_check_is_inverted :
  buildEvent (specMapping sampleRecord) Cfg.ObfuscateAPIKeysLength
             (sampleCfg ["method"; "bogus"] false 0) sampleRecord
  = Returns {[ "bogus" := VNil ]}.
Proof. reflexivity. Qed.

(** Whatever the registry holds, a one-name request goes the wrong way:
    the name is stored when the registry lacks it, and left out when the
    registry has it. *)
Lemma registry_check_any_registry (mapping : gmap string value)
    (operand : SplunkPumpConfig -> Z) (name : string) (r : AnalyticsRecord) :
  ∃ ev, buildEvent mapping operand (sampleCfg [name] false 0) r = Returns ev
        ∧ (mapping !! name = None → ev !! name = Some VNil)
        ∧ (is_Some (mapping !! name) → ev !! name = None).
Proof.
  destruct (buildEvent_returns mapping operand (sampleCfg [name] false 0) r)
    as [ev Hev]; [by right; left|].
  exists ev. split; [done|]. split.
  - intros Hname. apply (unregistered_emitted _ _ _ _ _ _ Hev); [by left|done|by right].
  - intros Hname.
    by apply (registered_not_emitted mapping operand (sampleCfg [name] false 0) r ev name).
Qed.

(** C2, at the second scenario of the specification (fields = ["api_key"],
    obfuscation on, length 4, key "1234567890"): the event is empty, where
    the specification has ["api_key" := "****7890"].  The key is registered, so the
    turn of the loop ends at line 159, before the redaction. *)
Theorem redaction_never_reached :
  buildEvent (specMapping sampleRecord) Cfg.ObfuscateAPIKeysLength
             (sampleCfg ["api_key"] true 4) sampleRecord
  = Returns ∅.
Proof. reflexivity. Qed.

(** With a registry that lacks the API key, lines 163-168 do redact. *)
Lemma redaction_when_unregistered (mapping : gmap string value)
    (operand : SplunkPumpConfig -> Z) cfg r :
  mapping !! "api_key" = None →
  Cfg.ObfuscateAPIKeys cfg = true →
  "api_key" ∈ Cfg.Fields cfg →
  0 ≤ operand cfg → len (analytics.APIKey r) < 2 ^ 63 →
  ∃ ev, buildEvent mapping operand cfg r = Returns ev
        ∧ ev !! "api_key" = redacted (analytics.APIKey r) (operand cfg).
Proof.
  intros Hk Hflag Hin Hn HK. unfold buildEvent.
  destruct (Cfg.Fields cfg) as [|f rest] eqn:Hfields; [by apply elem_of_nil in Hin|].
  change (0 <? Z.of_nat (length (f :: rest))) with true. cbv iota.
  destruct (projectFields_redact mapping operand cfg r (f :: rest) ∅ Hk Hflag Hn HK)
    as (ev & Hrun & Hkey & _); [apply lookup_empty|].
  exists ev. split; [done|]. by apply Hkey.
Qed.

Example redaction_unregistered_sample :
  buildEvent ∅ Cfg.ObfuscateAPIKeysLength (sampleCfg ["api_key"] true 4) sampleRecord
  = Returns {[ "api_key" := VString "****7890" ]}.
Proof. reflexivity. Qed.

Example redaction_negative_length :
  buildEvent ∅ Cfg.ObfuscateAPIKeysLength (sampleCfg ["api_key"] true (-1)) sampleRecord
  = Panics (PanicSliceBounds 11 10).
Proof. reflexivity. Qed.

(** C7: with an empty field list the event is the default one: its keys are
    the fourteen fixed names, each with the record's own value; the API key
    is stored as it is, whatever the obfuscation settings. *)
Theorem default_projection (mapping : gmap string value)
    (operand : SplunkPumpConfig -> Z) cfg r :
  Cfg.Fields cfg = [] →
  ∃ ev, buildEvent mapping operand cfg r = Returns ev
        ∧ dom ev = list_to_set defaultKeys
        ∧ size ev = 14%nat
        ∧ verbatim r ev.
Proof.
  intros Hfields. exists (defaultEvent r). unfold buildEvent. rewrite Hfields.
  split; [done|].
  split; [apply defaultEvent_dom|].
  split; [apply defaultEvent_size|apply defaultEvent_verbatim].
Qed.

Lemma default_projection_witness :
  Cfg.Fields (sampleCfg [] true 4) = []
  ∧ ∃ ev, buildEvent (specMapping sampleRecord) Cfg.ObfuscateAPIKeysLength
                     (sampleCfg [] true 4) sampleRecord = Returns ev
          ∧ dom ev = list_to_set defaultKeys
          ∧ size ev = 14%nat
          ∧ verbatim sampleRecord ev.
Proof.
  split; [reflexivity|].
  apply (default_projection (specMapping sampleRecord) Cfg.ObfuscateAPIKeysLength
           (sampleCfg [] true 4) sampleRecord).
  reflexivity.
Defined.

(** C9: the event of a record depends on the configuration through the
    field list, the obfuscation flag and the redaction operand alone, and on
    nothing a run brings with it: two runs of the loop on the same record,
    with different platforms, pumps, contexts, worlds and neighbouring
    records, build the same event [o], each before its world has changed,
    and hand that event to their [Send]. *)
Theorem transformer_deterministic (P1 P2 : Platform) (mapping : gmap string value)
    (operand : SplunkPumpConfig -> Z) (p1 p2 : SplunkPump) cfg1 cfg2
    (ctx1 ctx2 : Context) r (rest1 rest2 : list iface) (w1 w2 : World) :
  config p1 = Some cfg1 → config p2 = Some cfg2 →
  Cfg.Fields cfg1 = Cfg.Fields cfg2 →
  Cfg.ObfuscateAPIKeys cfg1 = Cfg.ObfuscateAPIKeys cfg2 →
  operand cfg1 = operand cfg2 →
  ∃ o : outcome (gmap string value),
    buildEvent mapping operand cfg1 r = o
    ∧ buildEvent mapping operand cfg2 r = o
    ∧ writeLoop P1 mapping operand p1 ctx1 (IRecord r :: rest1) w1
      = match o with
        | Panics q => (Panics q, w1)
        | Returns event =>
            match Send P1 (client p1) ctx1 event (analytics.TimeStamp r) w1 with
            | (Panics q, w') => (Panics q, w')
            | (Returns _, w') => writeLoop P1 mapping operand p1 ctx1 rest1 w'
            end
        end
    ∧ writeLoop P2 mapping operand p2 ctx2 (IRecord r :: rest2) w2
      = match o with
        | Panics q => (Panics q, w2)
        | Returns event =>
            match Send P2 (client p2) ctx2 event (analytics.TimeStamp r) w2 with
            | (Panics q, w') => (Panics q, w')
            | (Returns _, w') => writeLoop P2 mapping operand p2 ctx2 rest2 w'
            end
        end.
Proof.
  intros Hp1 Hp2 Hfields Hflag Hop.
  exists (buildEvent mapping operand cfg1 r).
  split; [done|].
  split; [symmetry; by apply buildEvent_projection_only|].
  split.
  - by apply writeLoop_record.
  - rewrite (buildEvent_projection_only mapping operand cfg1 cfg2 r Hfields Hflag Hop).
    by apply writeLoop_record.
Qed.

Lemma transformer_deterministic_witness :
  ∃ o : outcome (gmap string value),
    buildEvent (specMapping sampleRecord) Cfg.ObfuscateAPIKeysLength
               (sampleCfg ["api_key"; "bogus"] true 4) sampleRecord = o
    ∧ buildEvent (specMapping sampleRecord) Cfg.ObfuscateAPIKeysLength
                 otherCfg sampleRecord = o
    ∧ o = Returns {[ "bogus" := VNil ]}.
Proof.
  destruct (transformer_deterministic samplePlatform downPlatform
              (specMapping sampleRecord) Cfg.ObfuscateAPIKeysLength
              (samplePump (sampleCfg ["api_key"; "bogus"] true 4))
              {| client := None; config := Some otherCfg |}
              (sampleCfg ["api_key"; "bogus"] true 4) otherCfg
              ctxBackground ctxCanceled sampleRecord [] [IValue VNil] world0 world0
              eq_refl eq_refl eq_refl eq_refl eq_refl)
    as (o & H1 & H2 & _).
  exists o. split; [exact H1|]. split; [exact H2|].
  rewrite <- H1. reflexivity.
Defined.

(** ** Construction *)

(** C5: [NewSplunkClient] returns an error exactly when the token is empty,
    or the collector URL is empty, or the URL does not parse, or the peer is
    to be verified and the key pair does not load.  With an error comes no
    client (and an untouched world); without one comes a client. *)
Theorem NewSplunkClient_error_iff (P : Platform) (token collectorURL : string)
    (skipVerify : bool) (certFile keyFile serverName : string) (w : World) :
  let res := NewSplunkClient P token collectorURL skipVerify certFile keyFile serverName w in
  (is_Some res.1.2 ↔
     token = "" ∨ collectorURL = ""
     ∨ (∃ err, url_Parse P collectorURL = inr err)
     ∨ (skipVerify = false ∧ ∃ err, LoadX509KeyPair P certFile keyFile = inr err))
  ∧ (is_Some res.1.2 → res.1.1 = None ∧ res.2 = w)
  ∧ (res.1.2 = None → is_Some res.1.1).
Proof.
  intros res. subst res. rewrite NewSplunkClient_cases.
  pose proof (eqb_empty_or token collectorURL) as Hempty.
  pose proof (tlsConfigFor_error P skipVerify certFile keyFile serverName) as Htls.
  destruct (String.eqb token "" || String.eqb collectorURL "") eqn:He.
  { simpl. split; [|split; [done|done]].
    split; [intros _|by eauto].
    destruct (proj1 Hempty eq_refl); [by left|by right; left]. }
  assert (¬ (token = "" ∨ collectorURL = "")) as Hne.
  { intros H. apply Hempty in H. congruence. }
  destruct (url_Parse P collectorURL) as [u|err] eqn:Hurl.
  2:{ simpl. split; [|split; [done|done]].
      split; [intros _; right; right; left; by eauto|by eauto]. }
  destruct (tlsConfigFor P skipVerify certFile keyFile serverName) as [tlsConfig|err] eqn:Ht.
  - simpl. split; [|split; [by intros [? ?]|by eauto]].
    split; [by intros [? ?]|].
    intros [?|[?|[[? ?]|Hload]]]; [tauto|tauto|done|].
    apply Htls in Hload. by destruct Hload.
  - simpl. split; [|split; [done|done]].
    split; [intros _|by eauto].
    right; right; right. apply Htls. by eauto.
Qed.




(** Against C6 as stated: a non-empty token and a non-empty URL that parses,
    and still no client, because the peer is to be verified and there is no
    key pair to load (line 53-55). *)
Lemma valid_pair_without_key_pair :
  "tok" ≠ "" ∧ "https://h:8088/some/path" ≠ ""
  ∧ url_Parse samplePlatform "https://h:8088/some/path" = inl (sampleURL "/some/path")
  ∧ NewSplunkClient samplePlatform "tok" "https://h:8088/some/path" false "" "" "" world0
    = ((None, Some (ErrTLS "open: no such file or directory")), world0).
Proof. repeat split; discriminate. Qed.


(** C4, as the code has it.  A successful construction stores a new
    transport, carrying the TLS configuration of that call, in the
    process-wide default client, and the client it returns holds that default
    client; so every client holding the default client, the ones constructed
    earlier included, sends through the new transport from then on, and a
    client whose transport was another one has had it changed.  Requests
    sent and log are left alone.  A failed construction returns no client
    and leaves the world, the default client in it, as it was; so the
    transport of every client is then the one it was.  Every construction is
    of one of these two kinds. *)
Theorem NewSplunkClient_shares_default_client (P : Platform) (token collectorURL : string)
    (skipVerify : bool) (certFile keyFile serverName : string) (w : World) :
  let res := NewSplunkClient P token collectorURL skipVerify certFile keyFile serverName w in
  (∀ c, res.1 = (Some c, None) →
     ∃ tlsConfig,
       tlsConfigFor P skipVerify certFile keyFile serverName = inl tlsConfig
       ∧ httpClient c = defaultClientPtr
       ∧ DefaultClient res.2
         = {| http.Client.Transport := Some {| http.TLSClientConfig := tlsConfig |} |}
       ∧ wire res.2 = wire w ∧ logged res.2 = logged w
       ∧ ∀ c0, httpClient c0 = defaultClientPtr →
               transportOf res.2 c0 = Some (Some {| http.TLSClientConfig := tlsConfig |})
               ∧ (transportOf w c0 ≠ Some (Some {| http.TLSClientConfig := tlsConfig |}) →
                  transportOf res.2 c0 ≠ transportOf w c0))
  ∧ (is_Some res.1.2 →
     res.1.1 = None ∧ res.2 = w
     ∧ DefaultClient res.2 = DefaultClient w
     ∧ ∀ c0, transportOf res.2 c0 = transportOf w c0)
  ∧ ((∃ c, res.1 = (Some c, None)) ∨ (∃ err, res.1 = (None, Some err))).
Proof.
  intros res. subst res. rewrite NewSplunkClient_cases.
  destruct (String.eqb token "" || String.eqb collectorURL "").
  { split; [done|]. split; [by intros _|]. right. by eauto. }
  destruct (url_Parse P collectorURL) as [u|err].
  2:{ split; [done|]. split; [by intros _|]. right. by eauto. }
  destruct (tlsConfigFor P skipVerify certFile keyFile serverName) as [tlsConfig|err].
  2:{ split; [done|]. split; [by intros _|]. right. by eauto. }
  simpl. split; [|split; [by intros [? ?]|left; by eauto]].
  intros c Heq. injection Heq as <-. exists tlsConfig.
  do 5 (split; [reflexivity|]).
  intros c0 Hc0. unfold transportOf. rewrite Hc0. simpl. split; [done|].
  intros Hne Heq. apply Hne. by rewrite <- Heq.
Qed.

Lemma NewSplunkClient_shares_default_client_witness :
  (∃ tlsConfig,
     tlsConfigFor samplePlatform false "client.crt" "client.key" "splunk.local"
     = inl tlsConfig
     ∧ httpClient sampleClient = defaultClientPtr
     ∧ DefaultClient
         (NewSplunkClient samplePlatform "tok" "https://h:8088" false
            "client.crt" "client.key" "splunk.local" world0).2
       = {| http.Client.Transport := Some {| http.TLSClientConfig := tlsConfig |} |}
     ∧ tls.ServerName tlsConfig = "splunk.local")
  ∧ DefaultClient
      (NewSplunkClient samplePlatform "tok" "https://h:8088" false
         "missing.crt" "missing.key" "splunk.local" world0).2
    = DefaultClient world0.
Proof.
  split.
  - destruct (proj1 (NewSplunkClient_shares_default_client samplePlatform "tok"
                       "https://h:8088" false "client.crt" "client.key" "splunk.local"
                       world0) sampleClient eq_refl)
      as (tlsConfig & Htls & Hptr & Hdef & _).
    exists tlsConfig. split; [exact Htls|]. split; [exact Hptr|]. split; [exact Hdef|].
    injection Htls as <-. reflexivity.
  - refine (proj1 (proj2 (proj2 (proj1 (proj2
              (NewSplunkClient_shares_default_client samplePlatform "tok"
                 "https://h:8088" false "missing.crt" "missing.key" "splunk.local"
                 world0)) _)))).
    eexists. reflexivity.
Defined.

(** Against C4 as stated: a first client is constructed without verification,
    a second one with a key pair; both constructions change the default
    client's transport, and the transport the first client sends through is
    no longer the one it was constructed with. *)
Lemma second_client_changes_first :
  let r1 := NewSplunkClient samplePlatform "tok" "https://h:8088" true "" "" "" world0 in
  let r2 := NewSplunkClient samplePlatform "tok2" "https://h:8088/some/path" false
              "client.crt" "client.key" "splunk.local" r1.2 in
  ∃ c1 c2,
    r1.1 = (Some c1, None) ∧ r2.1 = (Some c2, None)
    ∧ DefaultClient r1.2 ≠ DefaultClient world0
    ∧ DefaultClient r2.2 ≠ DefaultClient r1.2
    ∧ transportOf r2.2 c1 ≠ transportOf r1.2 c1
    ∧ transportOf r2.2 c1 = transportOf r2.2 c2.
Proof.
  simpl. eexists _, _. split; [reflexivity|]. split; [reflexivity|].
  repeat split; discriminate.
Qed.

(** ** Delivery *)

(** C8, as the code has it, for every client, context, event, time stamp
    and world.  When every value of the event encodes and the client's
    endpoint parses, [Send] constructs one request and hands it to the
    client's HTTP client: a POST to the endpoint, under the caller's context,
    whose body is the object with [time] the Unix seconds of the time stamp
    and [event] the encoded event, and whose authorization header is
    "Splunk " followed by the token; for a client holding
    [http.DefaultClient], as every constructed client does, that request is
    the one request added to the wire and [Send] returns the network's answer
    to it.  When a value of the event does not encode, [Send] returns the
    serialization error and nothing is constructed or sent.  When the event
    encodes and the endpoint does not parse, [Send] returns the parse error
    and nothing is sent. *)
Theorem Send_wire_request (P : Platform) (c : SplunkClient) (ctx : Context)
    (event : gmap string value) (ts : time.Time) (w : World) :
  ((∀ k v, event !! k = Some v → marshalable P v = true) →
   ∀ u, url_Parse P (CollectorURL c) = inl u →
     ∃ req,
       http.Method req = "POST"
       ∧ http.URL req = u
       ∧ http.ctx req = ctx
       ∧ http.Body req
         = JObject (<["time" := JNumber (time.Unix ts)]>
                   (<["event" := JObject (omap (marshalValue P) event)]> ∅))
       ∧ http.Values (http.header req) "authorization" = ["Splunk " +:+ Token c]
       ∧ Send P (Some c) ctx event ts w = Do P (httpClient c) req w
       ∧ (httpClient c = defaultClientPtr →
          wire (Send P (Some c) ctx event ts w).2 = (wire w ++ [req])%list
          ∧ (Send P (Some c) ctx event ts w).1
            = match RoundTrip P (http.Client.Transport (DefaultClient w)) (wire w) req with
              | inl resp => Returns (Some resp, None)
              | inr err => Returns (None, Some err)
              end))
  ∧ (∀ k v, event !! k = Some v → marshalable P v = false →
       Send P (Some c) ctx event ts w = (Returns (None, Some ErrJSON), w))
  ∧ ((∀ k v, event !! k = Some v → marshalable P v = true) →
     ∀ err, url_Parse P (CollectorURL c) = inr err →
       Send P (Some c) ctx event ts w = (Returns (None, Some err), w)).
Proof.
  split; [|split].
  - intros Henc u Hurl.
    exists (requestOf c u ctx (wireBody P event ts)).
    do 5 (split; [reflexivity|]).
    rewrite (Send_request P c ctx event ts w u Henc Hurl).
    split; [done|]. intros ->. unfold Do.
    by destruct (RoundTrip P _ _ _).
  - intros k v Hk Hv. by apply (Send_unencodable P (Some c) ctx event ts w k v).
  - intros Henc err Hurl. unfold Send.
    rewrite json_Marshal_inl by done. unfold NewRequest. by rewrite Hurl.
Qed.

Lemma Send_wire_request_witness :
  ∃ req,
    wire (Send samplePlatform (Some sampleClient) ctxBackground
            {[ "method" := VString "GET" ]}
            {| time.unixSec := 1500000000; time.nsec := 7 |} world0).2 = [req]
    ∧ http.Method req = "POST"
    ∧ http.URL req = sampleURL defaultPath
    ∧ http.Body req
      = JObject (<["time" := JNumber 1500000000]>
                (<["event" := JObject {[ "method" := JString "GET" ]}]> ∅))
    ∧ http.Values (http.header req) "authorization" = ["Splunk tok"].
Proof.
  destruct (proj1 (Send_wire_request samplePlatform sampleClient ctxBackground
                     {[ "method" := VString "GET" ]}
                     {| time.unixSec := 1500000000; time.nsec := 7 |} world0))
    with (u := sampleURL defaultPath)
    as (req & Hm & Hu & _ & Hb & Hh & _ & Hwire).
  - intros k v Hk. apply lookup_singleton_Some in Hk as [_ <-]. reflexivity.
  - reflexivity.
  - exists req. split; [exact (proj1 (Hwire eq_refl))|]. split; [exact Hm|].
    split; [exact Hu|]. split; [|exact Hh]. rewrite Hb. reflexivity.
Defined.

(** Against C8 as stated: an event holding a value that JSON cannot encode is
    answered with an error at line 78, and no request is constructed. *)
Lemma unencodable_event_not_sent :
  Send samplePlatform (Some sampleClient) ctxBackground {[ "done" := VChan ]}
       {| time.unixSec := 1500000000; time.nsec := 0 |} world0
  = (Returns (None, Some ErrJSON), world0)
  ∧ wire world0 = [].
Proof. split; reflexivity. Qed.

(** The same from inside the pump: a time stamp beyond year 9999 in the
    default event. *)
Example unencodable_time_stamp :
  Send samplePlatform (Some sampleClient) ctxBackground
       {[ "time_stamp" := VTime {| time.unixSec := 253402300800; time.nsec := 0 |} ]}
       {| time.unixSec := 253402300800; time.nsec := 0 |} world0
  = (Returns (None, Some ErrJSON), world0).
Proof. reflexivity. Qed.

(** Nor is a request constructed for an endpoint that does not parse
    (lines 82-84). *)
Example unparsable_endpoint_not_sent :
  Send samplePlatform
       (Some {| Token := "tok"; CollectorURL := "::"; TLSSkipVerify := false;
                httpClient := defaultClientPtr |})
       ctxBackground {[ "method" := VString "GET" ]}
       {| time.unixSec := 1500000000; time.nsec := 0 |} world0
  = (Returns (None, Some (ErrURL "parse")), world0).
Proof. reflexivity. Qed.

(** [WriteData] has one way to return, with a nil error (line 196). *)
Lemma WriteData_never_reports (P : Platform) (mapping : gmap string value)
    (operand : SplunkPumpConfig -> Z) p ctx data w err :
  (WriteData P mapping operand p ctx data w).1 ≠ Returns (Some err).
Proof.
  rewrite WriteData_loop. simpl.
  by destruct (writeLoop P mapping operand p ctx data w).1.
Qed.

(** C3: on a batch of records an initialised pump returns, and returns no
    error, whatever the platform, hence whatever becomes of the sends (the
    slice of line 167 being out of reach or in bounds, so that no event
    panics); and on no batch at all does it return an error. *)
Theorem WriteData_reports_success (P : Platform) (mapping : gmap string value)
    (operand : SplunkPumpConfig -> Z) (p : SplunkPump) (ctx : Context)
    (c : SplunkClient) (cfg : SplunkPumpConfig) (rs : list AnalyticsRecord) (w : World) :
  client p = Some c → httpClient c = defaultClientPtr → config p = Some cfg →
  is_Some (mapping !! "api_key")
  ∨ Cfg.ObfuscateAPIKeys cfg = false
  ∨ (0 ≤ operand cfg ∧ ∀ r, r ∈ rs → len (analytics.APIKey r) < 2 ^ 63) →
  (WriteData P mapping operand p ctx (IRecord <$> rs) w).1 = Returns None
  ∧ ∀ data err, (WriteData P mapping operand p ctx data w).1 ≠ Returns (Some err).
Proof.
  intros Hc Hptr Hcfg Hsafe. split; [|intros data err; apply WriteData_never_reports].
  rewrite WriteData_loop. simpl.
  rewrite (writeLoop_records P mapping operand p ctx c cfg rs Hc Hptr Hcfg); [done|].
  intros r Hr. apply buildEvent_returns.
  destruct Hsafe as [?|[?|[Hn HK]]]; [by left|by right; left|].
  right; right. split; [done|by apply HK].
Qed.

(** Three records, a collector that cannot be reached: every send fails,
    and [WriteData] returns nil. *)
Lemma WriteData_reports_success_witness :
  (WriteData downPlatform (specMapping sampleRecord) Cfg.ObfuscateAPIKeysLength
     (samplePump (sampleCfg [] false 0)) ctxBackground
     (IRecord <$> [sampleRecord; sampleRecord; sampleRecord]) world0).1
  = Returns None
  ∧ (Send downPlatform (Some sampleClient) ctxBackground (defaultEvent sampleRecord)
       (analytics.TimeStamp sampleRecord) world0).1
    = Returns (None, Some (ErrTransport "connection refused")).
Proof.
  split.
  - refine (proj1 (WriteData_reports_success downPlatform (specMapping sampleRecord)
             Cfg.ObfuscateAPIKeysLength (samplePump (sampleCfg [] false 0))
             ctxBackground sampleClient (sampleCfg [] false 0)
             [sampleRecord; sampleRecord; sampleRecord] world0 _ _ _ _)).
    + reflexivity.
    + reflexivity.
    + reflexivity.
    + left. eexists. reflexivity.
  - reflexivity.
Defined.

(** C10: an element that is not an [analytics.AnalyticsRecord] makes
    [WriteData] panic; the requests sent are those of the elements before
    it, nothing after it being looked at; the panic is the one of the type
    assertion when the elements before it got through.  And [WriteData]
    returns only on batches made of records. *)
Theorem WriteData_type_assertion (P : Platform) (mapping : gmap string value)
    (operand : SplunkPumpConfig -> Z) (p : SplunkPump) (ctx : Context)
    (pre : list iface) (x : iface) (post : list iface) (w : World) :
  isRecord x = false →
  (∃ q, (WriteData P mapping operand p ctx (pre ++ x :: post) w).1 = Panics q)
  ∧ wire (WriteData P mapping operand p ctx (pre ++ x :: post) w).2
    = wire (WriteData P mapping operand p ctx pre w).2
  ∧ ((WriteData P mapping operand p ctx pre w).1 = Returns None →
     (WriteData P mapping operand p ctx (pre ++ x :: post) w).1 = Panics PanicTypeAssertion)
  ∧ (∀ data, returned (WriteData P mapping operand p ctx data w).1 = true →
             Forall (λ v, isRecord v = true) data).
Proof.
  intros Hx. rewrite !WriteData_loop. simpl.
  destruct (writeLoop_stops P mapping operand p ctx pre x post w Hx)
    as (Hworld & [q Hq] & Hpre).
  split; [|split; [|split]].
  - exists q. by rewrite Hq.
  - by rewrite Hworld.
  - destruct (writeLoop P mapping operand p ctx pre w).1 as [[]|q'] eqn:Hrun; [|done].
    intros _. by rewrite Hpre.
  - intros data Hret. rewrite WriteData_loop in Hret. simpl in Hret.
    apply (writeLoop_returned P mapping operand p ctx data w).
    by destruct (writeLoop P mapping operand p ctx data w).1.
Qed.

Lemma WriteData_type_assertion_witness :
  isRecord (IRecordPtr sampleRecord) = false
  ∧ (WriteData samplePlatform (specMapping sampleRecord) Cfg.ObfuscateAPIKeysLength
       (samplePump (sampleCfg [] false 0)) ctxBackground
       ([IRecord sampleRecord] ++ IRecordPtr sampleRecord :: [IRecord sampleRecord])
       world0).1
    = Panics PanicTypeAssertion
  ∧ length (wire (WriteData samplePlatform (specMapping sampleRecord)
                    Cfg.ObfuscateAPIKeysLength (samplePump (sampleCfg [] false 0))
                    ctxBackground
                    ([IRecord sampleRecord] ++ IRecordPtr sampleRecord
                                            :: [IRecord sampleRecord])
                    world0).2)
    = 1%nat.
Proof.
  destruct (WriteData_type_assertion samplePlatform (specMapping sampleRecord)
              Cfg.ObfuscateAPIKeysLength (samplePump (sampleCfg [] false 0))
              ctxBackground [IRecord sampleRecord] (IRecordPtr sampleRecord)
              [IRecord sampleRecord] world0 eq_refl)
    as (_ & Hwire & Hpanic & _).
  split; [reflexivity|]. split.
  - apply Hpanic. reflexivity.
  - rewrite Hwire. reflexivity.
Defined.

(** * Further properties of the transformer *)

Section ProjectionFacts.

Variable mapping : gmap string value.
Variable obfuscateOperand : SplunkPumpConfig -> Z.

(** Names that were not requested stay out of the event. *)
Lemma unrequested_not_emitted cfg r ev k :
  Cfg.Fields cfg ≠ [] →
  buildEvent mapping obfuscateOperand cfg r = Returns ev →
  k ∉ Cfg.Fields cfg →
  ev !! k = None.
Proof.
  unfold buildEvent. intros Hne Hrun Hk.
  destruct (Cfg.Fields cfg) as [|f rest] eqn:Hfields; [done|].
  change (0 <? Z.of_nat (length (f :: rest))) with true in Hrun. cbv iota in Hrun.
  rewrite (projectFields_frame _ _ _ _ _ _ _ _ Hrun); [apply lookup_empty|by right].
Qed.

Lemma buildEvent_lookup cfg r :
  Cfg.Fields cfg ≠ [] →
  is_Some (mapping !! "api_key")
  ∨ Cfg.ObfuscateAPIKeys cfg = false
  ∨ (0 ≤ obfuscateOperand cfg ∧ len (analytics.APIKey r) < 2 ^ 63) →
  ∃ ev, buildEvent mapping obfuscateOperand cfg r = Returns ev
        ∧ ∀ k, ev !! k = projected mapping obfuscateOperand cfg r k.
Proof.
  intros Hne Hsafe.
  destruct (buildEvent_returns mapping obfuscateOperand cfg r Hsafe) as [ev Hev].
  exists ev. split; [done|]. intros k. unfold projected.
  destruct (bool_decide (k ∈ Cfg.Fields cfg)) eqn:Hin.
  2:{ apply bool_decide_eq_false in Hin. by apply (unrequested_not_emitted cfg r). }
  apply bool_decide_eq_true in Hin.
  destruct (mapping !! k) as [v|] eqn:Hk.
  { apply (registered_not_emitted mapping obfuscateOperand cfg r); [done|done|].
    by rewrite Hk. }
  destruct (String.eqb k "api_key") eqn:Hname; simpl.
  - apply String.eqb_eq in Hname. subst k.
    destruct (Cfg.ObfuscateAPIKeys cfg) eqn:Hflag.
    + destruct Hsafe as [[v Hv]|[?|[Hn HK]]]; [congruence|done|].
      destruct (redaction_when_unregistered mapping obfuscateOperand cfg r
                  Hk Hflag Hin Hn HK) as (ev' & Hev' & Hkey).
      rewrite Hev in Hev'. by injection Hev' as ->.
    + apply (unregistered_emitted mapping obfuscateOperand cfg r); [done|done|done|].
      by right.
  - apply (unregistered_emitted mapping obfuscateOperand cfg r); [done|done|done|].
    left. by apply String.eqb_neq.
Qed.

Lemma projectField_values cfg r ev ev' f :
  projectField mapping obfuscateOperand cfg r ev f = Returns ev' →
  (∀ k v, ev !! k = Some v → maskedOrNil r k v) →
  ∀ k v, ev' !! k = Some v → maskedOrNil r k v.
Proof.
  unfold projectField. intros Hstep Hinv k v.
  destruct (mapping !! f) as [x|] eqn:Hf.
  { inversion Hstep; subst. apply Hinv. }
  destruct (String.eqb f "api_key" && Cfg.ObfuscateAPIKeys cfg) eqn:Hcase.
  - destruct (obfuscateOperand cfg <? len (analytics.APIKey r)).
    2:{ inversion Hstep; subst. apply Hinv. }
    destruct (slice_from _ _) as [suffix|q] eqn:Hslice; [|done].
    inversion Hstep; subst.
    apply andb_true_iff in Hcase as [Hname _]. apply String.eqb_eq in Hname. subst f.
    destruct (decide (k = "api_key")) as [->|Hne].
    + rewrite lookup_insert_eq. intros [= <-]. right. split; [done|]. by eauto.
    + rewrite lookup_insert_ne by done. apply Hinv.
  - inversion Hstep; subst. unfold index. rewrite Hf. simpl.
    destruct (decide (k = f)) as [->|Hne].
    + rewrite lookup_insert_eq. intros [= <-]. by left.
    + rewrite lookup_insert_ne by done. apply Hinv.
Qed.

Lemma projectFields_values cfg r fields : ∀ ev ev',
  projectFields mapping obfuscateOperand cfg r fields ev = Returns ev' →
  (∀ k v, ev !! k = Some v → maskedOrNil r k v) →
  ∀ k v, ev' !! k = Some v → maskedOrNil r k v.
Proof.
  induction fields as [|f rest IH]; simpl; intros ev ev' Hrun Hinv.
  - by inversion Hrun; subst.
  - destruct (projectField mapping obfuscateOperand cfg r ev f) as [ev1|q] eqn:Hstep;
      [|done].
    apply (IH ev1 ev' Hrun). by apply (projectField_values cfg r ev ev1 f).
Qed.

(** The slice of line 167 with a negative operand: the index, wrapped or
    not, falls outside the key. *)
Lemma slice_from_negative s n :
  - 2 ^ 63 ≤ n < 0 → len s < 2 ^ 63 →
  ∃ i, slice_from s (wrap64 (len s - n)) = Panics (PanicSliceBounds i (len s)).
Proof.
  intros Hn Hs. unfold slice_from, wrap64.
  assert (0 ≤ len s) as Hlen by (unfold len; lia).
  destruct (Z_lt_dec (len s - n) (2 ^ 63)) as [Hsmall|Hbig].
  - rewrite Z.mod_small by lia.
    destruct (len s - n + 2 ^ 63 - 2 ^ 63 <? 0) eqn:H1; simpl; [by eauto|].
    destruct (len s <? len s - n + 2 ^ 63 - 2 ^ 63) eqn:H2; [by eauto|lia].
  - replace (len s - n + 2 ^ 63) with (len s - n + 2 ^ 63 - 2 ^ 64 + 1 * 2 ^ 64) by lia.
    rewrite Z_mod_plus_full, Z.mod_small by lia.
    destruct (len s - n + 2 ^ 63 - 2 ^ 64 - 2 ^ 63 <? 0) eqn:H1; simpl; [by eauto|lia].
Qed.

Lemma projectFields_negative cfg r fields : ∀ ev,
  mapping !! "api_key" = None →
  Cfg.ObfuscateAPIKeys cfg = true →
  "api_key" ∈ fields →
  - 2 ^ 63 ≤ obfuscateOperand cfg < 0 → len (analytics.APIKey r) < 2 ^ 63 →
  ∃ i, projectFields mapping obfuscateOperand cfg r fields ev
       = Panics (PanicSliceBounds i (len (analytics.APIKey r))).
Proof.
  intros ev Hk Hflag Hin Hn HK. revert ev.
  induction fields as [|f rest IH]; intros ev; [by apply elem_of_nil in Hin|].
  simpl. destruct (decide (f = "api_key")) as [->|Hne].
  - unfold projectField. rewrite Hk, Hflag. simpl.
    assert (0 ≤ len (analytics.APIKey r)) by (unfold len; lia).
    destruct (obfuscateOperand cfg <? len (analytics.APIKey r)) eqn:Hlt; [|lia].
    destruct (slice_from_negative (analytics.APIKey r) (obfuscateOperand cfg) Hn HK)
      as [i ->]. by eauto.
  - apply elem_of_cons in Hin as [?|Hin]; [congruence|].
    assert (∃ ev1, projectField mapping obfuscateOperand cfg r ev f = Returns ev1)
      as [ev1 ->]; [|by apply IH].
    unfold projectField. destruct (mapping !! f); [by eauto|].
    apply String.eqb_neq in Hne. rewrite Hne. by eauto.
Qed.

End ProjectionFacts.

(** X1: the event of an explicit projection, name by name.  With a
    non-empty field list, and the slice of line 167 out of reach or in
    bounds, the transformer returns an event that holds: nothing under a name
    that was not requested; nothing under a requested name that the registry
    holds; under a requested API key that the registry lacks, with
    obfuscation on, the mask followed by the last [n] bytes of the key when
    the key is longer than the operand [n], and nothing otherwise; nil under
    every other requested name. *)
Theorem explicit_projection_lookup (mapping : gmap string value)
    (operand : SplunkPumpConfig -> Z) cfg r :
  Cfg.Fields cfg ≠ [] →
  is_Some (mapping !! "api_key")
  ∨ Cfg.ObfuscateAPIKeys cfg = false
  ∨ (0 ≤ operand cfg ∧ len (analytics.APIKey r) < 2 ^ 63) →
  ∃ ev, buildEvent mapping operand cfg r = Returns ev
        ∧ ∀ k, ev !! k = projected mapping operand cfg r k.
Proof. apply buildEvent_lookup. Qed.

Lemma explicit_projection_lookup_witness :
  ∃ ev, buildEvent {[ "method" := VNil ]} Cfg.ObfuscateAPIKeysLength
                   (sampleCfg ["api_key"; "method"; "bogus"] true 4) sampleRecord
        = Returns ev
        ∧ ev !! "api_key" = Some (VString "****7890")
        ∧ ev !! "method" = None
        ∧ ev !! "bogus" = Some VNil
        ∧ ev !! "path" = None.
Proof.
  destruct (explicit_projection_lookup {[ "method" := VNil ]} Cfg.ObfuscateAPIKeysLength
              (sampleCfg ["api_key"; "method"; "bogus"] true 4) sampleRecord)
    as (ev & Hev & Hlookup).
  - discriminate.
  - right; right. split; [simpl; lia|reflexivity].
  - exists ev. split; [exact Hev|].
    rewrite !Hlookup. repeat split; reflexivity.
Defined.

(** X2: the order of the requested names, and their repetition, do not
    matter: two configurations whose field lists have the same members, with
    the same obfuscation flag and operand, give the same event. *)
Theorem explicit_projection_order_irrelevant (mapping : gmap string value)
    (operand : SplunkPumpConfig -> Z) cfg1 cfg2 r :
  Cfg.Fields cfg1 ≠ [] →
  (∀ k, k ∈ Cfg.Fields cfg1 ↔ k ∈ Cfg.Fields cfg2) →
  Cfg.ObfuscateAPIKeys cfg1 = Cfg.ObfuscateAPIKeys cfg2 →
  operand cfg1 = operand cfg2 →
  is_Some (mapping !! "api_key")
  ∨ Cfg.ObfuscateAPIKeys cfg1 = false
  ∨ (0 ≤ operand cfg1 ∧ len (analytics.APIKey r) < 2 ^ 63) →
  buildEvent mapping operand cfg1 r = buildEvent mapping operand cfg2 r.
Proof.
  intros Hne Hsame Hflag Hop Hsafe.
  assert (Cfg.Fields cfg2 ≠ []) as Hne2.
  { destruct (Cfg.Fields cfg1) as [|f rest] eqn:H1; [done|].
    intros H2. rewrite H2 in Hsame. specialize (Hsame f).
    apply (elem_of_nil f), Hsame. by left. }
  destruct (buildEvent_lookup mapping operand cfg1 r Hne Hsafe) as (ev1 & -> & H1).
  destruct (buildEvent_lookup mapping operand cfg2 r Hne2) as (ev2 & -> & H2).
  { by rewrite <- Hflag, <- Hop. }
  f_equal. apply map_eq. intros k. rewrite H1, H2. unfold projected.
  rewrite <- Hflag, <- Hop.
  by rewrite (bool_decide_ext _ _ (Hsame k)).
Qed.

Lemma explicit_projection_order_irrelevant_witness :
  buildEvent ∅ Cfg.ObfuscateAPIKeysLength
             (sampleCfg ["api_key"; "bogus"] true 4) sampleRecord
  = buildEvent ∅ Cfg.ObfuscateAPIKeysLength
               (sampleCfg ["bogus"; "api_key"; "bogus"; "api_key"] true 4) sampleRecord.
Proof.
  apply (explicit_projection_order_irrelevant ∅ Cfg.ObfuscateAPIKeysLength
           (sampleCfg ["api_key"; "bogus"] true 4)
           (sampleCfg ["bogus"; "api_key"; "bogus"; "api_key"] true 4) sampleRecord).
  - discriminate.
  - intros k. simpl. rewrite !elem_of_cons, !elem_of_nil. tauto.
  - reflexivity.
  - reflexivity.
  - right; right. split; [simpl; lia|reflexivity].
Defined.

(** X3: an explicit projection never copies a field of the record into the
    event: every value it stores is nil, except under the API key, where it
    can be the mask followed by a tail of the key. *)
Theorem explicit_projection_values (mapping : gmap string value)
    (operand : SplunkPumpConfig -> Z) cfg r ev :
  Cfg.Fields cfg ≠ [] →
  buildEvent mapping operand cfg r = Returns ev →
  ∀ k v, ev !! k = Some v → maskedOrNil r k v.
Proof.
  unfold buildEvent. intros Hne Hrun.
  destruct (Cfg.Fields cfg) as [|f rest] eqn:Hfields; [done|].
  change (0 <? Z.of_nat (length (f :: rest))) with true in Hrun. cbv iota in Hrun.
  apply (projectFields_values mapping operand cfg r (f :: rest) ∅ ev Hrun).
  intros k v Hk. by rewrite lookup_empty in Hk.
Qed.

Lemma explicit_projection_values_witness :
  maskedOrNil sampleRecord "bogus" VNil.
Proof.
  apply (explicit_projection_values (specMapping sampleRecord) Cfg.ObfuscateAPIKeysLength
           (sampleCfg ["method"; "bogus"] false 0) sampleRecord {[ "bogus" := VNil ]}).
  - discriminate.
  - reflexivity.
  - reflexivity.
Defined.

(** X4: a negative operand in the redaction of a requested, unregistered API
    key makes the slice of line 167 panic, for every record, and with it
    every delivery of a batch that starts with a record. *)
Theorem negative_obfuscation_length_panics (P : Platform) (mapping : gmap string value)
    (operand : SplunkPumpConfig -> Z) (p : SplunkPump) cfg (ctx : Context)
    r (rest : list iface) (w : World) :
  config p = Some cfg →
  mapping !! "api_key" = None →
  Cfg.ObfuscateAPIKeys cfg = true →
  "api_key" ∈ Cfg.Fields cfg →
  - 2 ^ 63 ≤ operand cfg < 0 → len (analytics.APIKey r) < 2 ^ 63 →
  ∃ i, buildEvent mapping operand cfg r
       = Panics (PanicSliceBounds i (len (analytics.APIKey r)))
       ∧ (WriteData P mapping operand p ctx (IRecord r :: rest) w).1
         = Panics (PanicSliceBounds i (len (analytics.APIKey r)))
       ∧ wire (WriteData P mapping operand p ctx (IRecord r :: rest) w).2 = wire w.
Proof.
  intros Hcfg Hk Hflag Hin Hn HK.
  assert (∃ i, buildEvent mapping operand cfg r
               = Panics (PanicSliceBounds i (len (analytics.APIKey r)))) as [i Hi].
  { unfold buildEvent.
    destruct (Cfg.Fields cfg) as [|f fs] eqn:Hfields; [by apply elem_of_nil in Hin|].
    change (0 <? Z.of_nat (length (f :: fs))) with true. cbv iota.
    by apply projectFields_negative. }
  exists i. split; [done|].
  rewrite WriteData_loop, (writeLoop_record P mapping operand p ctx cfg r rest w Hcfg), Hi.
  done.
Qed.

Lemma negative_obfuscation_length_panics_witness :
  ∃ i, buildEvent ∅ Cfg.ObfuscateAPIKeysLength
                  (sampleCfg ["bogus"; "api_key"] true (-3)) sampleRecord
       = Panics (PanicSliceBounds i 10)
       ∧ (WriteData downPlatform ∅ Cfg.ObfuscateAPIKeysLength
            (samplePump (sampleCfg ["bogus"; "api_key"] true (-3))) ctxBackground
            (IRecord sampleRecord :: []) world0).1
         = Panics (PanicSliceBounds i 10)
       ∧ wire (WriteData downPlatform ∅ Cfg.ObfuscateAPIKeysLength
                 (samplePump (sampleCfg ["bogus"; "api_key"] true (-3))) ctxBackground
                 (IRecord sampleRecord :: []) world0).2 = [].
Proof.
  apply (negative_obfuscation_length_panics downPlatform ∅ Cfg.ObfuscateAPIKeysLength
           (samplePump (sampleCfg ["bogus"; "api_key"] true (-3)))
           (sampleCfg ["bogus"; "api_key"] true (-3)) ctxBackground sampleRecord []
           world0).
  - reflexivity.
  - reflexivity.
  - reflexivity.
  - right. left.
  - simpl. lia.
  - reflexivity.
Defined.

(** * Further properties of the delivery *)

Section DeliveryFacts.

Variable P : Platform.
Variable mapping : gmap string value.
Variable obfuscateOperand : SplunkPumpConfig -> Z.

(** What [Send] leaves behind: the default client and the log as they
    were, and on the wire at most one more request. *)
Lemma Send_effect c ctx event ts w :
  DefaultClient (Send P c ctx event ts w).2 = DefaultClient w
  ∧ logged (Send P c ctx event ts w).2 = logged w
  ∧ (wire (Send P c ctx event ts w).2 = wire w
     ∨ ∃ c' u,
         c = Some c' ∧ url_Parse P (CollectorURL c') = inl u
         ∧ wire (Send P c ctx event ts w).2
           = (wire w ++ [requestOf c' u ctx (wireBody P event ts)])%list).
Proof.
  unfold Send. destruct (json_Marshal P _) as [body|err] eqn:Hbody; [|by auto].
  destruct c as [c|]; [|by auto].
  unfold NewRequest. destruct (url_Parse P (CollectorURL c)) as [u|err] eqn:Hurl;
    [|by auto].
  unfold Do. destruct (httpClient c); [by auto|].
  assert (body = wireBody P event ts) as ->.
  { unfold json_Marshal in Hbody. simpl in Hbody.
    destruct (forallb _ _); by inversion Hbody. }
  unfold http.setHeader, http.WithContext. simpl. rewrite Add_authorization.
  destruct (RoundTrip P _ _ _); simpl; (split; [done|]; split; [done|]);
    right; exists c, u; done.
Qed.

Lemma writeLoop_effect p ctx data : ∀ w,
  DefaultClient (writeLoop P mapping obfuscateOperand p ctx data w).2 = DefaultClient w
  ∧ logged (writeLoop P mapping obfuscateOperand p ctx data w).2 = logged w
  ∧ ∃ reqs, wire (writeLoop P mapping obfuscateOperand p ctx data w).2
            = (wire w ++ reqs)%list
            ∧ (length reqs ≤ length data)%nat
            ∧ Forall (λ req, http.Method req = "POST" ∧ http.ctx req = ctx) reqs.
Proof.
  induction data as [|v rest IH]; intros w.
  { simpl. split; [done|]. split; [done|]. exists []. by rewrite app_nil_r. }
  assert (DefaultClient w = DefaultClient w ∧ logged w = logged w
          ∧ ∃ reqs, wire w = (wire w ++ reqs)%list
                    ∧ (length reqs ≤ S (length rest))%nat
                    ∧ Forall (λ req, http.Method req = "POST" ∧ http.ctx req = ctx)
                             reqs) as Hstay.
  { split; [done|]. split; [done|]. exists []. rewrite app_nil_r.
    split; [done|]. split; [simpl; lia|constructor]. }
  destruct v as [decoded| |]; simpl; [|exact Hstay|exact Hstay].
  destruct (config p) as [cfg|]; [|exact Hstay].
  destruct (buildEvent mapping obfuscateOperand cfg decoded) as [event|q];
    [|exact Hstay].
  destruct (Send_effect (client p) ctx event (analytics.TimeStamp decoded) w)
    as (Hdc & Hlog & Hwire).
  destruct (Send P (client p) ctx event (analytics.TimeStamp decoded) w)
    as [[res|q] w1]; simpl in *.
  - destruct (IH w1) as (Hdc' & Hlog' & reqs & Hreqs & Hlen & Hall).
    split; [congruence|]. split; [congruence|].
    destruct Hwire as [Hsame|(c' & u & _ & _ & Hmore)].
    + exists reqs. rewrite Hreqs, Hsame. split; [done|]. split; [lia|done].
    + eexists (_ :: reqs). rewrite Hreqs, Hmore, <- app_assoc. simpl.
      split; [done|]. split; [lia|]. by constructor.
  - split; [done|]. split; [done|].
    destruct Hwire as [Hsame|(c' & u & _ & _ & Hmore)].
    + exists []. rewrite app_nil_r. split; [done|]. split; [simpl; lia|constructor].
    + eexists [_]. split; [exact Hmore|]. split; [simpl; lia|].
      by repeat constructor.
Qed.

Lemma writeLoop_wire p ctx c cfg u rs :
  client p = Some c → httpClient c = defaultClientPtr → config p = Some cfg →
  url_Parse P (CollectorURL c) = inl u →
  (∀ r, r ∈ rs →
        ∃ ev, buildEvent mapping obfuscateOperand cfg r = Returns ev
              ∧ ∀ k v, ev !! k = Some v → marshalable P v = true) →
  ∀ w, ∃ reqs,
    wire (writeLoop P mapping obfuscateOperand p ctx (IRecord <$> rs) w).2
    = (wire w ++ reqs)%list
    ∧ Forall2 (λ r req,
                 ∃ ev, buildEvent mapping obfuscateOperand cfg r = Returns ev
                       ∧ req = requestOf c u ctx (wireBody P ev (analytics.TimeStamp r)))
              rs reqs.
Proof.
  intros Hc Hptr Hcfg Hurl. induction rs as [|r rs IH]; intros Hev w.
  { exists []. simpl. rewrite app_nil_r. split; [done|constructor]. }
  destruct (Hev r) as (ev & Hbuild & Henc); [by left|].
  rewrite fmap_cons, (writeLoop_record P mapping obfuscateOperand p ctx cfg r _ w Hcfg).
  rewrite Hbuild, Hc, (Send_request P c ctx ev _ w u Henc Hurl), Hptr.
  unfold Do.
  set (req := requestOf c u ctx (wireBody P ev (analytics.TimeStamp r))).
  assert (∀ w1, wire w1 = (wire w ++ [req])%list →
            ∃ reqs, wire (writeLoop P mapping obfuscateOperand p ctx (IRecord <$> rs) w1).2
                    = (wire w ++ reqs)%list
                    ∧ Forall2 (λ r req,
                         ∃ ev, buildEvent mapping obfuscateOperand cfg r = Returns ev
                               ∧ req = requestOf c u ctx
                                         (wireBody P ev (analytics.TimeStamp r)))
                        (r :: rs) reqs) as Hnext.
  { intros w1 Hw1. destruct (IH (λ r' Hr', Hev r' (list_elem_of_further _ _ _ Hr')) w1)
      as (reqs & Hreqs & Hall).
    exists (req :: reqs). rewrite Hreqs, Hw1, <- app_assoc. split; [done|].
    constructor; [|done]. by exists ev. }
  destruct (RoundTrip P _ _ _); by apply Hnext.
Qed.

End DeliveryFacts.

Lemma marshalable_all (P : Platform) (ev : gmap string value) :
  forallb (fun kv => marshalable P kv.2) (map_to_list ev) = true →
  ∀ k v, ev !! k = Some v → marshalable P v = true.
Proof.
  intros Hall k v Hk. rewrite forallb_forall in Hall.
  apply (Hall (k, v)). by apply list_elem_of_In, elem_of_map_to_list.
Qed.

(** X5: one request per record, in the order of the batch.  For an
    initialised pump whose endpoint parses, on a batch of records whose
    events are built and encode, the requests [WriteData] adds to the wire
    are, record by record, the POST of that record's event under the
    record's own time stamp, whatever the answers of the network. *)
Theorem WriteData_one_request_per_record (P : Platform) (mapping : gmap string value)
    (operand : SplunkPumpConfig -> Z) (p : SplunkPump) (ctx : Context)
    (c : SplunkClient) (cfg : SplunkPumpConfig) (u : url.URL)
    (rs : list AnalyticsRecord) (w : World) :
  client p = Some c → httpClient c = defaultClientPtr → config p = Some cfg →
  url_Parse P (CollectorURL c) = inl u →
  (∀ r, r ∈ rs →
        ∃ ev, buildEvent mapping operand cfg r = Returns ev
              ∧ ∀ k v, ev !! k = Some v → marshalable P v = true) →
  ∃ reqs,
    wire (WriteData P mapping operand p ctx (IRecord <$> rs) w).2 = (wire w ++ reqs)%list
    ∧ Forall2 (λ r req,
                 ∃ ev, buildEvent mapping operand cfg r = Returns ev
                       ∧ req = requestOf c u ctx (wireBody P ev (analytics.TimeStamp r)))
              rs reqs.
Proof.
  intros Hc Hptr Hcfg Hurl Hev. rewrite WriteData_loop. simpl.
  by apply (writeLoop_wire P mapping operand p ctx c cfg u rs).
Qed.

Lemma WriteData_one_request_per_record_witness :
  wire (WriteData downPlatform (specMapping sampleRecord) Cfg.ObfuscateAPIKeysLength
          (samplePump (sampleCfg [] false 0)) ctxCanceled
          (IRecord <$> [sampleRecord; laterRecord]) world0).2
  = [ requestOf sampleClient (sampleURL defaultPath) ctxCanceled
        (wireBody downPlatform (defaultEvent sampleRecord)
           (analytics.TimeStamp sampleRecord));
      requestOf sampleClient (sampleURL defaultPath) ctxCanceled
        (wireBody downPlatform (defaultEvent laterRecord)
           (analytics.TimeStamp laterRecord)) ].
Proof.
  destruct (WriteData_one_request_per_record downPlatform (specMapping sampleRecord)
              Cfg.ObfuscateAPIKeysLength (samplePump (sampleCfg [] false 0)) ctxCanceled
              sampleClient (sampleCfg [] false 0) (sampleURL defaultPath)
              [sampleRecord; laterRecord] world0 eq_refl eq_refl eq_refl eq_refl)
    as (reqs & Hwire & Hreqs).
  - intros r Hr. exists (defaultEvent r). split; [reflexivity|].
    apply marshalable_all.
    apply elem_of_cons in Hr as [->|Hr]; [reflexivity|].
    apply elem_of_cons in Hr as [->|Hr]; [reflexivity|].
    by apply elem_of_nil in Hr.
  - rewrite Hwire. simpl.
    apply Forall2_cons_inv_l in Hreqs as (req1 & reqs1 & (ev1 & Hev1 & ->) & Hreqs & ->).
    apply Forall2_cons_inv_l in Hreqs as (req2 & reqs2 & (ev2 & Hev2 & ->) & Hreqs & ->).
    apply Forall2_nil_inv_l in Hreqs as ->.
    injection Hev1 as <-. injection Hev2 as <-. reflexivity.
Defined.

(** X6: a record whose event has a value that JSON cannot encode (in the
    default projection, a time stamp the platform cannot format) is dropped
    without a trace: the delivery goes on as if the record were not in the
    batch, sending the same requests and ending the same way. *)
Theorem WriteData_drops_unencodable (P : Platform) (mapping : gmap string value)
    (operand : SplunkPumpConfig -> Z) (p : SplunkPump) (ctx : Context)
    (cfg : SplunkPumpConfig) r ev k v (rest : list iface) (w : World) :
  config p = Some cfg →
  buildEvent mapping operand cfg r = Returns ev →
  ev !! k = Some v → marshalable P v = false →
  (WriteData P mapping operand p ctx (IRecord r :: rest) w).1
  = (WriteData P mapping operand p ctx rest w).1
  ∧ wire (WriteData P mapping operand p ctx (IRecord r :: rest) w).2
    = wire (WriteData P mapping operand p ctx rest w).2.
Proof.
  intros Hcfg Hev Hk Hv. rewrite !WriteData_loop.
  rewrite (writeLoop_record P mapping operand p ctx cfg r rest w Hcfg), Hev.
  by rewrite (Send_unencodable P (client p) ctx ev _ w k v Hk Hv).
Qed.

Lemma WriteData_drops_unencodable_witness :
  (WriteData samplePlatform (specMapping sampleRecord) Cfg.ObfuscateAPIKeysLength
     (samplePump (sampleCfg [] false 0)) ctxBackground
     (IRecord farRecord :: [IRecord sampleRecord]) world0).1
  = Returns None
  ∧ length (wire (WriteData samplePlatform (specMapping sampleRecord)
                    Cfg.ObfuscateAPIKeysLength (samplePump (sampleCfg [] false 0))
                    ctxBackground (IRecord farRecord :: [IRecord sampleRecord])
                    world0).2)
    = 1%nat.
Proof.
  destruct (WriteData_drops_unencodable samplePlatform (specMapping sampleRecord)
              Cfg.ObfuscateAPIKeysLength (samplePump (sampleCfg [] false 0))
              ctxBackground (sampleCfg [] false 0) farRecord (defaultEvent farRecord)
              "time_stamp" (VTime (analytics.TimeStamp farRecord))
              [IRecord sampleRecord] world0 eq_refl eq_refl eq_refl eq_refl)
    as [Hout Hwire].
  split; [rewrite Hout|rewrite Hwire]; reflexivity.
Defined.

(** X7: what a delivery leaves behind, in every case (panics included):
    [http.DefaultClient] as it was; the log with exactly one more line, the
    one announcing the size of the batch; the wire with the earlier requests
    still there, followed by at most one new request per element, each a
    POST under the caller's context. *)
Theorem WriteData_effect (P : Platform) (mapping : gmap string value)
    (operand : SplunkPumpConfig -> Z) (p : SplunkPump) (ctx : Context)
    (data : list iface) (w : World) :
  DefaultClient (WriteData P mapping operand p ctx data w).2 = DefaultClient w
  ∧ logged (WriteData P mapping operand p ctx data w).2
    = (logged w ++ [writingEntry data])%list
  ∧ ∃ reqs,
      wire (WriteData P mapping operand p ctx data w).2 = (wire w ++ reqs)%list
      ∧ (length reqs ≤ length data)%nat
      ∧ Forall (λ req, http.Method req = "POST" ∧ http.ctx req = ctx) reqs.
Proof.
  rewrite WriteData_loop. simpl.
  destruct (writeLoop_effect P mapping operand p ctx data w) as (Hdc & _ & Hwire).
  done.
Qed.

(** X8: a pump that holds no configuration (one fresh from [New]) returns
    nil on the empty batch, and panics on every other batch before anything
    is sent. *)
Theorem WriteData_without_config (P : Platform) (mapping : gmap string value)
    (operand : SplunkPumpConfig -> Z) (p : SplunkPump) (ctx : Context)
    (data : list iface) (w : World) :
  config p = None →
  (data = [] → (WriteData P mapping operand p ctx data w).1 = Returns None)
  ∧ (data ≠ [] →
       ((WriteData P mapping operand p ctx data w).1 = Panics PanicNilDeref
        ∨ (WriteData P mapping operand p ctx data w).1 = Panics PanicTypeAssertion))
  ∧ wire (WriteData P mapping operand p ctx data w).2 = wire w.
Proof.
  intros Hcfg. rewrite WriteData_loop. simpl.
  destruct data as [|v rest]; [done|].
  destruct v as [decoded| |]; simpl; rewrite ?Hcfg; simpl;
    (split; [done|]); (split; [|done]); intros _; by auto.
Qed.

Lemma WriteData_without_config_witness :
  (WriteData samplePlatform ∅ Cfg.ObfuscateAPIKeysLength New ctxBackground [] world0).1
  = Returns None
  ∧ (WriteData samplePlatform ∅ Cfg.ObfuscateAPIKeysLength New ctxBackground
       [IRecord sampleRecord] world0).1 = Panics PanicNilDeref.
Proof.
  split.
  - apply (WriteData_without_config samplePlatform ∅ Cfg.ObfuscateAPIKeysLength New
             ctxBackground [] world0 eq_refl). reflexivity.
  - reflexivity.
Defined.

(** X9: [Send] leaves [http.DefaultClient] and the log alone, and either
    leaves the wire alone too, or adds to it exactly one request: for a
    non-nil client whose endpoint parses, the POST to that endpoint whose
    only header is the authorization one and whose body is the encoded
    event with the Unix seconds of the time stamp. *)
Theorem Send_effect_on_world (P : Platform) (c : option SplunkClient) (ctx : Context)
    (event : gmap string value) (ts : time.Time) (w : World) :
  DefaultClient (Send P c ctx event ts w).2 = DefaultClient w
  ∧ logged (Send P c ctx event ts w).2 = logged w
  ∧ (wire (Send P c ctx event ts w).2 = wire w
     ∨ ∃ c' u,
         c = Some c' ∧ url_Parse P (CollectorURL c') = inl u
         ∧ wire (Send P c ctx event ts w).2
           = (wire w ++ [ {| http.Method := "POST"; http.URL := u;
                             http.header :=
                               {[ "Authorization" := ["Splunk " +:+ Token c'] ]};
                             http.Body := wireBody P event ts;
                             http.ctx := ctx |} ])%list).
Proof. apply Send_effect. Qed.

(** * Further properties of construction and initialisation *)

Section ConstructionFacts.

Variable P : Platform.

Lemma NewSplunkClient_fails_iff token collectorURL skipVerify certFile keyFile serverName w :
  is_Some (NewSplunkClient P token collectorURL skipVerify certFile keyFile serverName w).1.2
  ↔ token = "" ∨ collectorURL = ""
    ∨ (∃ err, url_Parse P collectorURL = inr err)
    ∨ (skipVerify = false ∧ ∃ err, LoadX509KeyPair P certFile keyFile = inr err).
Proof.
  rewrite NewSplunkClient_cases.
  pose proof (eqb_empty_or token collectorURL) as Hempty.
  pose proof (tlsConfigFor_error P skipVerify certFile keyFile serverName) as Htls.
  destruct (String.eqb token "" || String.eqb collectorURL "") eqn:He.
  { simpl. split; [intros _|by eauto].
    destruct (proj1 Hempty eq_refl); [by left|by right; left]. }
  assert (¬ (token = "" ∨ collectorURL = "")) as Hne.
  { intros H. apply Hempty in H. congruence. }
  destruct (url_Parse P collectorURL) as [u|err] eqn:Hurl.
  2:{ simpl. split; [intros _; right; right; left; by eauto|by eauto]. }
  destruct (tlsConfigFor P skipVerify certFile keyFile serverName) as [tlsConfig|err] eqn:Ht.
  - simpl. split; [by intros [? ?]|].
    intros [?|[?|[[? ?]|Hload]]]; [tauto|tauto|done|].
    apply Htls in Hload. by destruct Hload.
  - simpl. split; [intros _|by eauto].
    right; right; right. apply Htls. by eauto.
Qed.

Lemma NewSplunkClient_failed token collectorURL skipVerify certFile keyFile serverName w :
  is_Some (NewSplunkClient P token collectorURL skipVerify certFile keyFile serverName w).1.2 →
  (NewSplunkClient P token collectorURL skipVerify certFile keyFile serverName w).1.1 = None
  ∧ (NewSplunkClient P token collectorURL skipVerify certFile keyFile serverName w).2 = w.
Proof.
  rewrite NewSplunkClient_cases.
  destruct (String.eqb token "" || String.eqb collectorURL ""); [done|].
  destruct (url_Parse P collectorURL); [|done].
  destruct (tlsConfigFor P skipVerify certFile keyFile serverName); [|done].
  simpl. by intros [? ?].
Qed.


End ConstructionFacts.

(** X10: without verification the key pair and the server name play no
    part: whatever is passed for them, the same client comes back and the
    same transport is installed. *)
Theorem NewSplunkClient_skipVerify_ignores_pair (P : Platform)
    (token collectorURL : string) (certFile keyFile serverName : string)
    (certFile' keyFile' serverName' : string) (w : World) :
  NewSplunkClient P token collectorURL true certFile keyFile serverName w
  = NewSplunkClient P token collectorURL true certFile' keyFile' serverName' w.
Proof. by rewrite !NewSplunkClient_cases. Qed.

(** X11: the latest construction wins, whatever came before: if a
    construction succeeds in some world, it gives the same client and leaves
    the same world when another construction, successful or not, has been
    run first.  In particular constructing twice with the same arguments is
    the same as constructing once. *)
Theorem NewSplunkClient_latest_wins (P : Platform)
    (token collectorURL : string) (skipVerify : bool)
    (certFile keyFile serverName : string)
    (token0 collectorURL0 : string) (skipVerify0 : bool)
    (certFile0 keyFile0 serverName0 : string) (w w' : World) (c : SplunkClient) :
  NewSplunkClient P token collectorURL skipVerify certFile keyFile serverName w
  = ((Some c, None), w') →
  NewSplunkClient P token collectorURL skipVerify certFile keyFile serverName
    (NewSplunkClient P token0 collectorURL0 skipVerify0 certFile0 keyFile0 serverName0 w).2
  = ((Some c, None), w').
Proof.
  rewrite !NewSplunkClient_cases.
  destruct (String.eqb token "" || String.eqb collectorURL ""); [done|].
  destruct (url_Parse P collectorURL); [|done].
  destruct (tlsConfigFor P skipVerify certFile keyFile serverName); [|done].
  intros Heq. rewrite <- Heq. f_equal.
  destruct (String.eqb token0 "" || String.eqb collectorURL0 ""); [done|].
  destruct (url_Parse P collectorURL0); [|done].
  by destruct (tlsConfigFor P skipVerify0 certFile0 keyFile0 serverName0).
Qed.

Lemma NewSplunkClient_latest_wins_witness :
  NewSplunkClient samplePlatform "tok" "https://h:8088" true "" "" ""
    (NewSplunkClient samplePlatform "tok2" "https://h:8088/some/path" false
       "client.crt" "client.key" "splunk.local" world0).2
  = NewSplunkClient samplePlatform "tok" "https://h:8088" true "" "" "" world0.
Proof.
  apply (NewSplunkClient_latest_wins samplePlatform "tok" "https://h:8088" true "" "" ""
           "tok2" "https://h:8088/some/path" false "client.crt" "client.key"
           "splunk.local" world0).
  reflexivity.
Defined.

Section InitFacts.

Variable P : Platform.
Variable RawConfig : Type.
Variable Decode : RawConfig -> SplunkPumpConfig -> SplunkPumpConfig * option error.

(** [Init], by where it ends. *)
Lemma Init_cases p raw w :
  Init P RawConfig Decode p raw w
  = let cfg := (Decode raw zeroConfig).1 in
    let made :=
      NewSplunkClient P (Cfg.CollectorToken cfg) (Cfg.CollectorURL cfg)
        (Cfg.SSLInsecureSkipVerify cfg) (Cfg.SSLCertFile cfg)
        (Cfg.SSLKeyFile cfg) (Cfg.SSLServerName cfg) (pushLog w (endpointEntry cfg)) in
    match (Decode raw zeroConfig).2 with
    | Some err => ((Some err, {| client := client p; config := Some cfg |}), w)
    | None =>
        match made.1.2 with
        | Some err => ((Some err, {| client := made.1.1; config := Some cfg |}), made.2)
        | None =>
            ((None, {| client := made.1.1; config := Some cfg |}),
             pushLog made.2 initializedEntry)
        end
    end.
Proof. reflexivity. Qed.

Lemma Init_fails_iff p raw w :
  is_Some (Init P RawConfig Decode p raw w).1.1
  ↔ is_Some (Decode raw zeroConfig).2
    ∨ Cfg.CollectorToken (Decode raw zeroConfig).1 = ""
    ∨ Cfg.CollectorURL (Decode raw zeroConfig).1 = ""
    ∨ (∃ err, url_Parse P (Cfg.CollectorURL (Decode raw zeroConfig).1) = inr err)
    ∨ (Cfg.SSLInsecureSkipVerify (Decode raw zeroConfig).1 = false
       ∧ ∃ err, LoadX509KeyPair P (Cfg.SSLCertFile (Decode raw zeroConfig).1)
                  (Cfg.SSLKeyFile (Decode raw zeroConfig).1) = inr err).
Proof.
  rewrite Init_cases. cbv zeta.
  destruct (Decode raw zeroConfig) as [cfg [err|]]; simpl.
  { split; [by left|by eauto]. }
  rewrite <- (NewSplunkClient_fails_iff P (Cfg.CollectorToken cfg) (Cfg.CollectorURL cfg)
                (Cfg.SSLInsecureSkipVerify cfg) (Cfg.SSLCertFile cfg) (Cfg.SSLKeyFile cfg)
                (Cfg.SSLServerName cfg) (pushLog w (endpointEntry cfg))).
  destruct (NewSplunkClient P _ _ _ _ _ _ _).1.2 as [err|]; simpl.
  - split; [by right|by eauto].
  - split; [by intros [? ?]|]. intros [[? ?]|[? ?]]; done.
Qed.


Lemma Init_failed p raw w :
  is_Some (Init P RawConfig Decode p raw w).1.1 →
  config (Init P RawConfig Decode p raw w).1.2 = Some (Decode raw zeroConfig).1
  ∧ DefaultClient (Init P RawConfig Decode p raw w).2 = DefaultClient w
  ∧ wire (Init P RawConfig Decode p raw w).2 = wire w
  ∧ (is_Some (Decode raw zeroConfig).2 →
       client (Init P RawConfig Decode p raw w).1.2 = client p
       ∧ (Init P RawConfig Decode p raw w).2 = w)
  ∧ ((Decode raw zeroConfig).2 = None →
       client (Init P RawConfig Decode p raw w).1.2 = None
       ∧ logged (Init P RawConfig Decode p raw w).2
         = (logged w ++ [endpointEntry (Decode raw zeroConfig).1])%list).
Proof.
  rewrite Init_cases. cbv zeta.
  destruct (Decode raw zeroConfig) as [cfg [err|]]; simpl.
  { intros _. repeat split; done. }
  pose proof (NewSplunkClient_failed P (Cfg.CollectorToken cfg) (Cfg.CollectorURL cfg)
                (Cfg.SSLInsecureSkipVerify cfg) (Cfg.SSLCertFile cfg) (Cfg.SSLKeyFile cfg)
                (Cfg.SSLServerName cfg) (pushLog w (endpointEntry cfg))) as Hfail.
  destruct (NewSplunkClient P _ _ _ _ _ _ _).1.2 as [err|]; simpl; [|by intros [? ?]].
  destruct Hfail as [Hc Hw]; [by eauto|]. rewrite Hc, Hw. intros _.
  repeat split; try done.
Qed.

End InitFacts.

(** X12: [Init] returns an error exactly when the decoding of the raw
    configuration fails, or the decoded token or collector URL is empty, or
    that URL does not parse, or verification is on and the decoded key pair
    does not load. *)
Theorem Init_error_iff (P : Platform) (RawConfig : Type)
    (Decode : RawConfig -> SplunkPumpConfig -> SplunkPumpConfig * option error)
    (p : SplunkPump) (raw : RawConfig) (w : World) :
  is_Some (Init P RawConfig Decode p raw w).1.1
  ↔ is_Some (Decode raw zeroConfig).2
    ∨ Cfg.CollectorToken (Decode raw zeroConfig).1 = ""
    ∨ Cfg.CollectorURL (Decode raw zeroConfig).1 = ""
    ∨ (∃ err, url_Parse P (Cfg.CollectorURL (Decode raw zeroConfig).1) = inr err)
    ∨ (Cfg.SSLInsecureSkipVerify (Decode raw zeroConfig).1 = false
       ∧ ∃ err, LoadX509KeyPair P (Cfg.SSLCertFile (Decode raw zeroConfig).1)
                  (Cfg.SSLKeyFile (Decode raw zeroConfig).1) = inr err).
Proof. apply Init_fails_iff. Qed.



(** X14: a failed [Init] still replaces the pump's configuration by what the
    decoder left, and never touches [http.DefaultClient] or the wire.  When
    the decoding failed, the client is the one the pump had and nothing is
    logged; when the construction of the client failed, the pump is left
    without a client, even if it had one, and only the endpoint line is
    logged. *)
Theorem Init_failure_effect (P : Platform) (RawConfig : Type)
    (Decode : RawConfig -> SplunkPumpConfig -> SplunkPumpConfig * option error)
    (p : SplunkPump) (raw : RawConfig) (w : World) :
  is_Some (Init P RawConfig Decode p raw w).1.1 →
  config (Init P RawConfig Decode p raw w).1.2 = Some (Decode raw zeroConfig).1
  ∧ DefaultClient (Init P RawConfig Decode p raw w).2 = DefaultClient w
  ∧ wire (Init P RawConfig Decode p raw w).2 = wire w
  ∧ (is_Some (Decode raw zeroConfig).2 →
       client (Init P RawConfig Decode p raw w).1.2 = client p
       ∧ (Init P RawConfig Decode p raw w).2 = w)
  ∧ ((Decode raw zeroConfig).2 = None →
       client (Init P RawConfig Decode p raw w).1.2 = None
       ∧ logged (Init P RawConfig Decode p raw w).2
         = (logged w ++ [endpointEntry (Decode raw zeroConfig).1])%list).
Proof. apply Init_failed. Qed.

Lemma Init_failure_effect_witness :
  is_Some (Init samplePlatform SplunkPumpConfig (sampleDecode false)
             (samplePump (sampleCfg [] false 0)) noURLCfg world0).1.1
  ∧ client (Init samplePlatform SplunkPumpConfig (sampleDecode false)
              (samplePump (sampleCfg [] false 0)) noURLCfg world0).1.2 = None
  ∧ config (Init samplePlatform SplunkPumpConfig (sampleDecode false)
              (samplePump (sampleCfg [] false 0)) noURLCfg world0).1.2 = Some noURLCfg.
Proof.
  assert (is_Some (Init samplePlatform SplunkPumpConfig (sampleDecode false)
                     (samplePump (sampleCfg [] false 0)) noURLCfg world0).1.1) as Hfail.
  { eexists. reflexivity. }
  destruct (Init_failure_effect samplePlatform SplunkPumpConfig (sampleDecode false)
              (samplePump (sampleCfg [] false 0)) noURLCfg world0 Hfail)
    as (Hcfg & _ & _ & _ & Hclient).
  split; [exact Hfail|]. split; [|exact Hcfg].
  apply Hclient. reflexivity.
Defined.

(** X15: after an [Init] that failed at the construction of the client, a
    delivery does not report an error: on the first record whose event
    encodes, [Send] runs on a nil client and the call panics, with nothing
    sent. *)
Theorem WriteData_after_failed_construction (P : Platform) (RawConfig : Type)
    (Decode : RawConfig -> SplunkPumpConfig -> SplunkPumpConfig * option error)
    (p : SplunkPump) (raw : RawConfig) (w : World)
    (mapping : gmap string value) (operand : SplunkPumpConfig -> Z)
    (ctx : Context) r ev (rest : list iface) (w1 : World) :
  (Decode raw zeroConfig).2 = None →
  is_Some (Init P RawConfig Decode p raw w).1.1 →
  buildEvent mapping operand (Decode raw zeroConfig).1 r = Returns ev →
  (∀ k v, ev !! k = Some v → marshalable P v = true) →
  (WriteData P mapping operand (Init P RawConfig Decode p raw w).1.2 ctx
     (IRecord r :: rest) w1).1 = Panics PanicNilDeref
  ∧ wire (WriteData P mapping operand (Init P RawConfig Decode p raw w).1.2 ctx
            (IRecord r :: rest) w1).2 = wire w1.
Proof.
  intros Hdec Hfail Hev Henc.
  destruct (Init_failed P RawConfig Decode p raw w Hfail) as (Hcfg & _ & _ & _ & Hclient).
  destruct (Hclient Hdec) as [Hnil _].
  rewrite WriteData_loop.
  rewrite (writeLoop_record P mapping operand _ ctx _ r rest w1 Hcfg), Hev, Hnil.
  unfold Send. by rewrite json_Marshal_inl.
Qed.

Lemma WriteData_after_failed_construction_witness :
  (WriteData samplePlatform ∅ Cfg.ObfuscateAPIKeysLength
     (Init samplePlatform SplunkPumpConfig (sampleDecode false)
        (samplePump (sampleCfg [] false 0)) noURLCfg world0).1.2
     ctxBackground (IRecord sampleRecord :: [IRecord laterRecord]) world0).1
  = Panics PanicNilDeref.
Proof.
  refine (proj1 (WriteData_after_failed_construction samplePlatform SplunkPumpConfig
                   (sampleDecode false) (samplePump (sampleCfg [] false 0)) noURLCfg
                   world0 ∅ Cfg.ObfuscateAPIKeysLength ctxBackground sampleRecord
                   (defaultEvent sampleRecord) [IRecord laterRecord] world0 _ _ _ _)).
  - reflexivity.
  - eexists. reflexivity.
  - reflexivity.
  - apply marshalable_all. reflexivity.
Defined.
